(** * CyberCheck: GPS plausibility classifier and check-in decision

    A shallow embedding of [src/lib/geolocation.ts] (threshold table,
    Haversine distance, location acquisition, [detectSuspiciousGPS]) and of
    [handleCheckin] in [src/pages/student/Checkin.tsx], followed by the
    properties of the specification that were checked against it.

    Conventions of the embedding:
    - a JavaScript [number] is an IEEE-754 binary64 value, here the
      primitive [float] with its arithmetic and comparisons;
    - an optional parameter or a nullable column is an [option];
    - a string is a [string] of bytes; case folding is done on ASCII letters;
    - asynchronous code is written in a state-and-exception monad over a
      record that keeps the order in which location requests are issued and
      awaited;
    - functions of the JavaScript engine whose results the language
      standard leaves to the implementation (sin, cos, atan2, rounding to
      an integer, number printing) are fields of an [Engine] record. *)

From Stdlib Require Import Floats.PrimFloat Floats.FloatOps Floats.FloatAxioms Floats.SpecFloat.
From Stdlib Require Import Bool Ascii Strings.Byte String DecimalString List Arith PArith NArith ZArith Uint63 Lia.
Import ListNotations.

Set Warnings "-inexact-float".

(** ** JavaScript values and built-ins *)

Module JS.

Definition number := float.

(** [ToBoolean] on a number: [+0], [-0] and [NaN] are falsy. *)
Definition truthy (x : number) : bool :=
  negb (PrimFloat.eqb x 0%float || PrimFloat.is_nan x).

(** [x && x > bound] for an optional numeric argument [x]. *)
Definition and_gt (x : option number) (bound : number) : bool :=
  match x with
  | Some v => truthy v && PrimFloat.ltb bound v
  | None => false
  end.

(** [x && x < bound] for an optional numeric argument [x]. *)
Definition and_lt (x : option number) (bound : number) : bool :=
  match x with
  | Some v => truthy v && PrimFloat.ltb v bound
  | None => false
  end.

(** [x || dflt] for an optional numeric value. *)
Definition or_default (x : option number) (dflt : number) : number :=
  match x with
  | Some v => if truthy v then v else dflt
  | None => dflt
  end.

(** [s || dflt] for an optional string: the empty string is falsy. *)
Definition or_default_string (s : option string) (dflt : string) : string :=
  match s with
  | Some EmptyString => dflt
  | Some v => v
  | None => dflt
  end.

Definition lower_ascii (c : ascii) : ascii :=
  let n := nat_of_ascii c in
  if (65 <=? n) && (n <=? 90) then ascii_of_nat (n + 32) else c.

(** [String.prototype.toLowerCase], on ASCII letters. *)
Fixpoint toLowerCase (s : string) : string :=
  match s with
  | EmptyString => EmptyString
  | String c rest => String (lower_ascii c) (toLowerCase rest)
  end.

(** [String.prototype.includes]. *)
Fixpoint includes (s sub : string) : bool :=
  String.prefix sub s ||
  match s with
  | EmptyString => false
  | String _ rest => includes rest sub
  end.

(** [Array.prototype.join] on an array of strings. *)
Fixpoint join (xs : list string) (sep : string) : string :=
  match xs with
  | [] => EmptyString
  | [x] => x
  | x :: rest => x ++ sep ++ join rest sep
  end.

(** [Array.prototype.some]. *)
Definition some {A} (xs : list A) (p : A -> bool) : bool := existsb p xs.

(** [Math.PI]. *)
Definition Math_PI : number := 0x1.921fb54442d18p+1%float.

(** The part of the engine that ECMAScript leaves implementation-approximated
    or that has no counterpart among the primitive float operations. *)
Record Engine := {
  Math_sin : number -> number;
  Math_cos : number -> number;
  Math_atan2 : number -> number -> number;
  Math_round : number -> number;
  Number_toString : number -> string
}.

(** What a [throw] carries. *)
Inductive Exn :=
| Error (message : string)
| TypeError (message : string).

End JS.

(** ** [src/lib/geolocation.ts]: data and pure functions *)

Module Geolocation.

Import JS.

Record LocationData := {
  latitude : number;
  longitude : number;
  accuracy : number;
  timestamp : number
}.

Record DetectionThresholds := {
  accuracyThreshold : number;
  maxAccuracy : number;
  varianceThreshold : number;
  timestampThreshold : number
}.

(** [getDetectionThresholds]: a [switch] on the level. The [default] arm calls
    the function again on ['medium'], which lands in the ['medium'] arm; the
    two arms share the local [medium]. *)
Definition getDetectionThresholds (level : string) : DetectionThresholds :=
  let medium :=
    {| accuracyThreshold := 3.0; maxAccuracy := 15000;
       varianceThreshold := 0.00001; timestampThreshold := 200 |}%float in
  if (level =? "minimal")%string then
    {| accuracyThreshold := 1.0; maxAccuracy := 20000;
       varianceThreshold := 0.000001; timestampThreshold := 100 |}%float
  else if (level =? "medium")%string then medium
  else if (level =? "maximal")%string then
    {| accuracyThreshold := 5.0; maxAccuracy := 10000;
       varianceThreshold := 0.0001; timestampThreshold := 500 |}%float
  else medium.

(** The object literal [adjustedThresholds] of [detectSuspiciousGPS]: a copy
    of [thresholds] with two fields overridden. *)
Definition adjustedThresholds (thresholds : DetectionThresholds)
    (teacherRadius pinValiditySeconds : option number) : DetectionThresholds :=
  {| accuracyThreshold := accuracyThreshold thresholds;
     maxAccuracy := maxAccuracy thresholds;
     varianceThreshold :=
       if and_gt teacherRadius 200%float
       then (varianceThreshold thresholds * 10)%float
       else varianceThreshold thresholds;
     timestampThreshold :=
       if and_lt pinValiditySeconds 60%float
       then (timestampThreshold thresholds / 2)%float
       else timestampThreshold thresholds |}.

(** [calculateDistance]: the Haversine formula, term for term. *)
Definition calculateDistance (js : Engine) (lat1 lon1 lat2 lon2 : number) : number :=
  (let R := 6371e3 in
   let phi1 := lat1 * Math_PI / 180 in
   let phi2 := lat2 * Math_PI / 180 in
   let dphi := (lat2 - lat1) * Math_PI / 180 in
   let dlambda := (lon2 - lon1) * Math_PI / 180 in
   let a :=
     Math_sin js (dphi / 2) * Math_sin js (dphi / 2) +
     Math_cos js phi1 * Math_cos js phi2 *
       Math_sin js (dlambda / 2) * Math_sin js (dlambda / 2) in
   let c := 2 * Math_atan2 js (PrimFloat.sqrt a) (PrimFloat.sqrt (1 - a)) in
   R * c)%float.

End Geolocation.

(** ** The platform and the monad of asynchronous code *)

Module Async.

Import JS Geolocation.

Inductive PositionErrorCode :=
| PERMISSION_DENIED
| POSITION_UNAVAILABLE
| TIMEOUT
| OTHER_CODE.

Record GeolocationPositionError := {
  code : PositionErrorCode;
  message : string
}.

Record PositionOptions := {
  enableHighAccuracy : bool;
  timeout : number;
  maximumAge : number
}.

Inductive PositionResult :=
| Position (position : LocationData)
| PositionError (error : GeolocationPositionError).

(** [navigator]: the device identity string and, when the browser has one,
    the geolocation service. The service answers the request made by the
    [n]-th call of [getCurrentLocation] under the given options. *)
Record Navigator := {
  userAgent : string;
  geolocation : option (nat -> PositionOptions -> PositionResult)
}.

Record Platform := {
  engine : Engine;
  navigator : Navigator
}.

(** What an observer of one run sees of the location source: a request being
    issued (the call of [getCurrentLocation], whose promise executor runs at
    once), and the function suspending on a set of pending requests. The
    callbacks of the geolocation service run from the event loop, hence only
    while the function is suspended: the requests of an [Awaited] entry
    complete during that suspension. *)
Inductive Event :=
| Requested (id : nat)
| Awaited (ids : list nat).

Record Machine := {
  issued : nat;
  trace : list Event
}.

Inductive Completion (A : Type) :=
| Normal (value : A)
| Throw (exn : Exn).
Arguments Normal {A} value.
Arguments Throw {A} exn.

Section Monad.

Context {St : Type}.

Definition M (A : Type) : Type := Platform -> St -> Completion A * St.

Definition ret {A} (a : A) : M A := fun _ s => (Normal a, s).

Definition bind {A B} (c : M A) (k : A -> M B) : M B :=
  fun pf s =>
    match c pf s with
    | (Normal a, s') => k a pf s'
    | (Throw e, s') => (Throw e, s')
    end.

Definition throw {A} (e : Exn) : M A := fun _ s => (Throw e, s).

(** [try { body } catch (error) { handler }]: the state reached when the
    exception was raised is the one the handler starts from. *)
Definition try_catch {A} (body : M A) (handler : Exn -> M A) : M A :=
  fun pf s =>
    match body pf s with
    | (Normal a, s') => (Normal a, s')
    | (Throw e, s') => handler e pf s'
    end.

Definition gets {A} (f : St -> A) : M A := fun _ s => (Normal (f s), s).

Definition modify (f : St -> St) : M unit := fun _ s => (Normal tt, f s).

Definition platform : M Platform := fun pf s => (Normal pf, s).

(** [if (cond) { body }] *)
Definition when (cond : bool) (body : M unit) : M unit :=
  if cond then body else ret tt.

End Monad.

Arguments M St A : clear implicits.

Declare Scope js_scope.
Delimit Scope js_scope with js.
Notation "x <- c ;; k" := (bind c (fun x => k))
  (at level 61, c at next level, right associativity) : js_scope.
Notation "c ;; k" := (bind c (fun _ => k))
  (at level 61, right associativity) : js_scope.
Open Scope js_scope.

(** A pending promise of [getCurrentLocation], named by its request. *)
Definition Promise := nat.

Definition highAccuracy : PositionOptions :=
  {| enableHighAccuracy := true; timeout := 20000; maximumAge := 0 |}%float.

Definition lowAccuracy : PositionOptions :=
  {| enableHighAccuracy := false; timeout := 15000; maximumAge := 30000 |}%float.

(** [handleGeolocationError]: the rejection for each error class. *)
Definition handleGeolocationError (error : GeolocationPositionError) : Exn :=
  match code error with
  | PERMISSION_DENIED =>
      Error "Joylashuv ruxsati berilmadi. Iltimos, brauzer sozlamalaridan GPS ruxsatini bering."
  | POSITION_UNAVAILABLE =>
      Error "Joylashuvni aniqlab bo'lmadi. Internet aloqasini tekshiring."
  | TIMEOUT =>
      Error "Joylashuvni aniqlash vaqti tugadi. Qayta urinib ko'ring."
  | OTHER_CODE =>
      Error ("Noma'lum xatolik: " ++ message error)
  end.

(** How the promise of request [id] settles: [tryHighAccuracy], then
    [tryLowAccuracy] when (and only when) the first attempt timed out. *)
Definition settle (pf : Platform) (id : nat) : Exn + LocationData :=
  match geolocation (navigator pf) with
  | None => inl (Error "Geolocation qo'llab-quvvatlanmaydi")
  | Some getCurrentPosition =>
      match getCurrentPosition id highAccuracy with
      | Position position => inr position
      | PositionError error =>
          match code error with
          | TIMEOUT =>
              match getCurrentPosition id lowAccuracy with
              | Position position => inr position
              | PositionError error' => inl (handleGeolocationError error')
              end
          | _ => inl (handleGeolocationError error)
          end
      end
  end.

(** [getCurrentLocation()]: issues a request and returns its promise. *)
Definition getCurrentLocation : M Machine Promise :=
  id <- gets issued ;;
  modify (fun m => {| issued := S id; trace := trace m ++ [Requested id] |}) ;;
  ret id.

(** [await p] *)
Definition await (p : Promise) : M Machine LocationData :=
  modify (fun m => {| issued := issued m; trace := trace m ++ [Awaited [p]] |}) ;;
  pf <- platform ;;
  match settle pf p with
  | inr location => ret location
  | inl e => throw e
  end.

(** The settled values of a list of promises, or the first rejection in the
    order of the list. *)
Fixpoint settle_all (pf : Platform) (ps : list Promise) : Exn + list LocationData :=
  match ps with
  | [] => inr []
  | p :: rest =>
      match settle pf p with
      | inl e => inl e
      | inr v =>
          match settle_all pf rest with
          | inl e => inl e
          | inr vs => inr (v :: vs)
          end
      end
  end.

(** [await Promise.all(ps)]: one suspension on all of [ps]. *)
Definition await_all (ps : list Promise) : M Machine (list LocationData) :=
  modify (fun m => {| issued := issued m; trace := trace m ++ [Awaited ps] |}) ;;
  pf <- platform ;;
  match settle_all pf ps with
  | inr readings => ret readings
  | inl e => throw e
  end.

End Async.

(** ** [detectSuspiciousGPS] *)

Module Classifier.

Import JS Geolocation Async.
Local Open Scope string_scope.

(** The resolved value of [detectSuspiciousGPS]. *)
Record Verdict := {
  isSuspicious : bool;
  reasons : list string
}.

(** The two local variables of [detectSuspiciousGPS] next to the machine:
    [const reasons: string[] = []] and [let isSuspicious = false]. *)
Record Frame := {
  var_isSuspicious : bool;
  var_reasons : list string;
  machine : Machine
}.

(** Running machine-level code from inside the function. *)
Definition lift {A} (c : M Machine A) : M Frame A :=
  fun pf fr =>
    let (r, m) := c pf (machine fr) in
    (r, {| var_isSuspicious := var_isSuspicious fr;
           var_reasons := var_reasons fr;
           machine := m |}).

(** [isSuspicious = b;] *)
Definition set_isSuspicious (b : bool) : M Frame unit :=
  modify (fun fr => {| var_isSuspicious := b;
                       var_reasons := var_reasons fr;
                       machine := machine fr |}).

(** [reasons.push(r);] mutates the array the binding points to. *)
Definition reasons_push (r : string) : M Frame unit :=
  modify (fun fr => {| var_isSuspicious := var_isSuspicious fr;
                       var_reasons := (var_reasons fr ++ [r])%list;
                       machine := machine fr |}).

(** [reasons = [];] (line 297). The binding [reasons] is declared with
    [const] (line 221): evaluating an assignment to it raises a [TypeError]
    and leaves the array as it is. Type checking reports the assignment; the
    embedding follows what the statement does when it is evaluated. *)
Definition reasons_assign (_ : list string) : M Frame unit :=
  throw (TypeError "Assignment to constant variable.").

(** A function body with its local variables: the locals start from their
    initialisers and disappear when the function returns. *)
Definition with_locals {A} (c : M Frame A) : M Machine A :=
  fun pf m =>
    let (r, fr) := c pf {| var_isSuspicious := false; var_reasons := []; machine := m |} in
    (r, machine fr).

Definition isEmulator (userAgent : string) : bool :=
  includes userAgent "sdk" ||
  includes userAgent "emulator" ||
  includes userAgent "simulator".

Definition coordinatesIdentical (r0 r1 : LocationData) : bool :=
  let latDiff := PrimFloat.abs (latitude r0 - latitude r1) in
  let lonDiff := PrimFloat.abs (longitude r0 - longitude r1) in
  PrimFloat.ltb latDiff 0.0000001 && PrimFloat.ltb lonDiff 0.0000001.

(** The statements of the [try] block that evaluate the indicators. *)
Definition collectIndicators : M Frame unit :=
  pf <- platform ;;
  let userAgent := toLowerCase (userAgent (navigator pf)) in
  when (isEmulator userAgent)
    (set_isSuspicious true ;;
     reasons_push "Emulator/Simulator aniqlandi") ;;
  location <- lift (p <- getCurrentLocation ;; await p) ;;
  when (PrimFloat.eqb (accuracy location) 0)
    (set_isSuspicious true ;;
     reasons_push "Mumkin bo'lmagan GPS aniqligi (0 metr)") ;;
  when (PrimFloat.ltb (accuracy location) 0.1)
    (set_isSuspicious true ;;
     reasons_push "Mumkin bo'lmagan yuqori aniqlik") ;;
  readings <- lift (p0 <- getCurrentLocation ;;
                    p1 <- getCurrentLocation ;;
                    await_all [p0; p1]) ;;
  match readings with
  | [r0; r1] =>
      when (coordinatesIdentical r0 r1)
        (set_isSuspicious true ;;
         reasons_push "GPS ko'rsatkichlari sun'iy ravishda bir xil")
  | _ => throw (TypeError "Cannot read properties of undefined")
  end.

(** The last statement of the [try] block:
    [if (reasons.length < 2) { isSuspicious = false; reasons = []; }]. *)
Definition requireMultipleIndicators : M Frame unit :=
  rs <- gets var_reasons ;;
  when (Nat.ltb (List.length rs) 2)
    (set_isSuspicious false ;;
     reasons_assign []).

Definition isExempt (userRole : option string) : bool :=
  match userRole with
  | Some role => (role =? "teacher")%string || (role =? "admin")%string
  | None => false
  end.

Definition detectSuspiciousGPS
    (level : option string)
    (teacherRadius pinValiditySeconds : option number)
    (userRole : option string) : M Machine Verdict :=
  let level := match level with Some l => l | None => "medium" end in
  with_locals
    (if isExempt userRole then
       ret {| isSuspicious := false; reasons := [] |}
     else
       let thresholds := getDetectionThresholds level in
       let adjustedThresholds :=
         adjustedThresholds thresholds teacherRadius pinValiditySeconds in
       try_catch
         (collectIndicators ;;
          requireMultipleIndicators)
         (fun error => reasons_push "GPS tekshiruvida xatolik") ;;
       s <- gets var_isSuspicious ;;
       rs <- gets var_reasons ;;
       ret {| isSuspicious := s; reasons := rs |}).

End Classifier.

(** ** [handleCheckin] of [src/pages/student/Checkin.tsx] *)

Module Checkin.

Import JS Geolocation Async Classifier.
Local Open Scope string_scope.

Record User := {
  user_id : string;
  role : string
}.

(** The columns of [lessons] that the query selects and the function reads. *)
Record Lesson := {
  lesson_id : string;
  lesson_latitude : number;
  lesson_longitude : number;
  radius_meters : option number;
  fake_detection_level : option string;
  allow_skip_gps : bool;
  pin_validity_seconds : option number
}.

(** What the component and its collaborators supply to one call: the
    signed-in user, the answer of the lesson query for a PIN ([None] for an
    error or no row), the value [getFingerprint] resolves to ([None] when it
    rejects) and the clock. *)
Record App := {
  user : option User;
  findActiveLesson : string -> option Lesson;
  getFingerprint : option string;
  Date_now : number
}.

Inductive Status := present | suspicious.

Record CheckResult := {
  success : bool;
  result_message : string;
  result_status : option Status
}.

(** The fields written to [attendance], by [update] or by [insert]. *)
Record AttendanceRow := {
  row_lesson_id : string;
  row_student_id : string;
  status : Status;
  row_latitude : number;
  row_longitude : number;
  distance_meters : number;
  is_fake_gps : bool;
  suspicious_reason : option string;
  fingerprint : string;
  user_agent : string
}.

(** The effects of one call: the result handed to [setCheckResult] (if any)
    and the attendance row written (if any). *)
Record Outcome := {
  shown : option CheckResult;
  written : option AttendanceRow
}.

Definition isMobileDevice (nav : Navigator) : bool :=
  let userAgent := toLowerCase (userAgent nav) in
  let mobileKeywords := ["android"; "iphone"; "ipad"; "ipod"; "mobile"; "webos"] in
  some mobileKeywords (fun keyword => includes userAgent keyword).

Definition failure (message : string) : Outcome :=
  {| shown := Some {| success := false; result_message := message; result_status := None |};
     written := None |}.

Definition exn_message (e : Exn) : string :=
  match e with
  | Error message => message
  | TypeError message => message
  end.

Definition nl : string := String (ascii_of_nat 10) EmptyString.

(** The message built in the [catch] around the orchestrator's own
    [getCurrentLocation]. *)
Definition locationErrorMessage (e : Exn) : string :=
  let errorMessage := exn_message e in
  if includes (exn_message e) "ruxsat" then
    errorMessage ++ nl ++ nl ++ "Chrome/Safari sozlamalarida: " ++ nl ++
    "1. Uch burchak menyuga bosing" ++ nl ++
    "2. 'Joylashuv' ruxsatini 'Ruxsat berilgan' qiling" ++ nl ++
    "3. Sahifani qayta yuklang"
  else if includes (exn_message e) "Internet" then
    errorMessage ++ nl ++ nl ++ "Iltimos, Wi-Fi yoki mobil internet aloqasini tekshiring"
  else errorMessage.

(** Lines 81-121: the location and the verdict, or the message to reject
    with. *)
Definition locate (lesson : Lesson) (app : App) (skipGPS : bool)
  : M Machine (string + LocationData * Verdict) :=
  if skipGPS then
    ret (inr ({| latitude := 0%float; longitude := 0%float; accuracy := 9999%float;
                 timestamp := Date_now app |},
              {| isSuspicious := false;
                 reasons := ["GPS tekshiruvi o'tkazib yuborildi"] |}))
  else
    suspiciousCheck <-
      detectSuspiciousGPS
        (Some (or_default_string (fake_detection_level lesson) "medium"))
        (radius_meters lesson)
        (pin_validity_seconds lesson)
        (option_map role (user app)) ;;
    try_catch
      (location <- (p <- getCurrentLocation ;; await p) ;;
       ret (inr (location, suspiciousCheck)))
      (fun error => ret (inl (locationErrorMessage error))).

(** Lines 139-152: the status and its reason. *)
Definition determineStatus (js : Engine) (skipGPS : bool) (suspiciousCheck : Verdict)
    (isWithinRadius : bool) (distance radiusMeters : number)
  : Status * option string :=
  if negb skipGPS && isSuspicious suspiciousCheck then
    (suspicious, Some (join (reasons suspiciousCheck) ", "))
  else if negb skipGPS && negb isWithinRadius then
    (suspicious,
     Some ("Darsdan " ++ Number_toString js (Math_round js distance) ++
           "m uzoqda (ruxsat: " ++ Number_toString js radiusMeters ++ "m)"))
  else if skipGPS then
    (present, Some "GPS tekshiruvi o'tkazib yuborildi")
  else
    (present, None).

Definition handleCheckin (app : App) (pinCode : string) (skipGPS : bool)
  : M Machine Outcome :=
  match user app with
  | None => ret {| shown := None; written := None |}
  | Some user =>
  if negb (String.length pinCode =? 6)%nat then ret {| shown := None; written := None |}
  else
  try_catch
    (pf <- platform ;;
     if negb (isMobileDevice (navigator pf)) then
       ret (failure "Faqat mobil qurilmadan foydalaning!")
     else
     match findActiveLesson app pinCode with
     | None => ret (failure "PIN kod noto'g'ri yoki muddati o'tgan")
     | Some lesson =>
     let radiusMeters := or_default (radius_meters lesson) 120%float in
     located <- locate lesson app skipGPS ;;
     match located with
     | inl errorMessage => ret (failure errorMessage)
     | inr (location, suspiciousCheck) =>
     let '(distance, isWithinRadius) :=
       if negb skipGPS then
         let distance :=
           calculateDistance (engine pf)
             (latitude location) (longitude location)
             (lesson_latitude lesson) (lesson_longitude lesson) in
         (distance, PrimFloat.leb distance radiusMeters)
       else (0%float, true) in
     match getFingerprint app with
     | None => throw (TypeError "getFingerprint")
     | Some fingerprint =>
     let '(status, suspiciousReason) :=
       determineStatus (engine pf) skipGPS suspiciousCheck
         isWithinRadius distance radiusMeters in
     let row :=
       {| row_lesson_id := lesson_id lesson;
          row_student_id := user_id user;
          status := status;
          row_latitude := latitude location;
          row_longitude := longitude location;
          distance_meters := distance;
          is_fake_gps := isSuspicious suspiciousCheck;
          suspicious_reason := suspiciousReason;
          fingerprint := fingerprint;
          user_agent := userAgent (navigator pf) |} in
     let result :=
       match status with
       | present =>
           {| success := true;
              result_message :=
                "Davomat muvaffaqiyatli qayd etildi! (" ++
                Number_toString (engine pf) (Math_round (engine pf) distance) ++ "m)";
              result_status := Some present |}
       | suspicious =>
           {| success := false;
              result_message :=
                match suspiciousReason with
                | Some (String c rest) => String c rest
                | _ => "Shubhali holat aniqlandi"
                end;
              result_status := Some suspicious |}
       end in
     ret {| shown := Some result; written := Some row |}
     end end end)
    (fun error => ret (failure "Tizim xatosi yuz berdi"))
  end.

End Checkin.

(** ** Vocabulary of the properties *)

Module Observe.

Import JS Geolocation Async Classifier Checkin.
Local Open Scope string_scope.

(** The verdict a run resolves to. *)
Definition verdict_of {A} (run : Completion A * Machine) : Completion A := fst run.

(** The requests and suspensions a run adds to the trace. *)
Definition trace_of {A} (run : Completion A * Machine) : list Event := trace (snd run).

(** The three acquisitions a classification started in machine [m] makes all
    resolve. *)
Definition acquisitions_succeed (pf : Platform) (m : Machine) (l0 l1 l2 : LocationData) : Prop :=
  settle pf (issued m) = inr l0 /\
  settle pf (S (issued m)) = inr l1 /\
  settle pf (S (S (issued m))) = inr l2.

(** The reasons [collectIndicators] pushes, in the order of the source, for a
    device identity string and three readings. *)
Definition indicators (ua : string) (l0 l1 l2 : LocationData) : list string :=
  ((if isEmulator (toLowerCase ua) then ["Emulator/Simulator aniqlandi"] else []) ++
   (if PrimFloat.eqb (accuracy l0) 0 then ["Mumkin bo'lmagan GPS aniqligi (0 metr)"] else []) ++
   (if PrimFloat.ltb (accuracy l0) 0.1 then ["Mumkin bo'lmagan yuqori aniqlik"] else []) ++
   (if coordinatesIdentical l1 l2 then ["GPS ko'rsatkichlari sun'iy ravishda bir xil"] else []))%list.

(** The frame a function body starts from. *)
Definition entry (m : Machine) : Frame :=
  {| var_isSuspicious := false; var_reasons := []; machine := m |}.

(** The reasons held by [reasons] when the [try] block reaches its last
    statement, if it does. *)
Definition accumulated (pf : Platform) (m : Machine) : option (list string) :=
  match collectIndicators pf (entry m) with
  | (Normal _, fr) => Some (var_reasons fr)
  | (Throw _, _) => None
  end.

Definition remove_all (ids pending : list nat) : list nat :=
  filter (fun p => negb (existsb (Nat.eqb p) ids)) pending.

(** A trace is sequential when no request is issued while an earlier one is
    still pending, that is, not yet awaited. *)
Fixpoint sequential_from (pending : list nat) (t : list Event) : bool :=
  match t with
  | [] => true
  | Requested id :: rest =>
      match pending with
      | [] => sequential_from [id] rest
      | _ :: _ => false
      end
  | Awaited ids :: rest => sequential_from (remove_all ids pending) rest
  end.

Definition sequential (t : list Event) : bool := sequential_from [] t.

(** The trace of a classification that starts with request [n]. *)
Definition classification_trace (n : nat) : list Event :=
  [Requested n; Awaited [n];
   Requested (S n); Requested (S (S n)); Awaited [S n; S (S n)]].

(** An acquisition of the classification fails: the first one, or the second
    or third after the first one resolved. *)
Definition some_acquisition_fails (pf : Platform) (m : Machine) : Prop :=
  (exists e, settle pf (issued m) = inl e) \/
  (exists l0 e, settle pf (issued m) = inr l0 /\
                settle_all pf [S (issued m); S (S (issued m))] = inl e).

(** The machine after a classification that made its three requests. *)
Definition after_classification (m : Machine) : Machine :=
  {| issued := S (S (S (issued m)));
     trace := (trace m ++ classification_trace (issued m))%list |}.

End Observe.

(** ** Concrete devices and lessons *)

Module Scenario.

Import JS Geolocation Async Classifier Checkin.
Local Open Scope string_scope.

(** The integer part of a finite number, rounding down. *)
Definition floorZ (x : number) : Z :=
  match Prim2SF x with
  | S754_finite s m e =>
      let n := if s then Z.neg m else Z.pos m in
      if (0 <=? e)%Z then (n * 2 ^ e)%Z else (n / 2 ^ (- e))%Z
  | _ => 0%Z
  end.

Definition ofZ (z : Z) : number :=
  if (0 <=? z)%Z then PrimFloat.of_uint63 (Uint63.of_Z z)
  else PrimFloat.opp (PrimFloat.of_uint63 (Uint63.of_Z (- z))).

(** An engine for the examples. Its trigonometry is the small-angle
    approximation, which is adequate for a latitude offset of a few hundred
    metres; it rounds half up and prints integral values in decimal. *)
Definition sampleEngine : Engine :=
  {| Math_sin := fun x => x;
     Math_cos := fun x => (1 - x * x / 2)%float;
     Math_atan2 := fun y x => (y / x)%float;
     Math_round := fun x => ofZ (floorZ (x + 0.5)%float);
     Number_toString := fun x => NilZero.string_of_int (Z.to_int (floorZ x)) |}.

Definition reading (lat lon acc : number) : LocationData :=
  {| latitude := lat; longitude := lon; accuracy := acc; timestamp := 1700000000000%float |}.

Definition phone : string :=
  "Mozilla/5.0 (Linux; Android 13; Pixel 7) AppleWebKit/537.36 Chrome/120.0 Mobile Safari/537.36".

Definition emulatorPhone : string :=
  "Mozilla/5.0 (Linux; Android 13; Android SDK built for x86) AppleWebKit/537.36 Chrome/120.0 Mobile Safari/537.36".

Definition device (ua : string) (gps : nat -> PositionOptions -> PositionResult) : Platform :=
  {| engine := sampleEngine;
     navigator := {| userAgent := ua; geolocation := Some gps |} |}.

(** A genuine sensor: every reading differs a little, accuracy 12 m. *)
Definition jitteringGPS (n : nat) (_ : PositionOptions) : PositionResult :=
  match n with
  | 0 => Position (reading 41.30000 69.20000 12)
  | 1 => Position (reading 41.30001 69.20000 12)
  | 2 => Position (reading 41.30002 69.20001 15)
  | _ => Position (reading 41.30001 69.20001 12)
  end%float.

(** A genuine sensor some 300 m north of the classroom. *)
Definition distantGPS (n : nat) (_ : PositionOptions) : PositionResult :=
  match n with
  | 0 => Position (reading 41.302698 69.20000 12)
  | 1 => Position (reading 41.302699 69.20000 12)
  | 2 => Position (reading 41.302697 69.20001 15)
  | _ => Position (reading 41.302698 69.20000 12)
  end%float.

(** A genuine sensor, except that its first reading reports accuracy 0. *)
Definition zeroAccuracyGPS (n : nat) (_ : PositionOptions) : PositionResult :=
  match n with
  | 0 => Position (reading 41.30000 69.20000 0)
  | 1 => Position (reading 41.30001 69.20000 12)
  | 2 => Position (reading 41.30002 69.20001 15)
  | _ => Position (reading 41.30001 69.20001 12)
  end%float.

(** A sensor that fails every request. *)
Definition brokenGPS (_ : nat) (_ : PositionOptions) : PositionResult :=
  PositionError {| code := POSITION_UNAVAILABLE; message := "" |}.

(** A sensor that reports accuracy 0 once and then freezes its coordinates. *)
Definition frozenGPS (n : nat) (_ : PositionOptions) : PositionResult :=
  match n with
  | 0 => Position (reading 41.3 69.2 0)
  | _ => Position (reading 41.3 69.2 8)
  end%float.

Definition genuinePhone : Platform := device phone jitteringGPS.

Definition distantPhone : Platform := device phone distantGPS.

Definition frozenPhone : Platform := device phone frozenGPS.

Definition zeroAccuracyPhone : Platform := device phone zeroAccuracyGPS.

Definition failingEmulator : Platform := device emulatorPhone brokenGPS.

Definition start : Machine := {| issued := 0; trace := [] |}.

Definition student : User := {| user_id := "s-1"; role := "student" |}.

Definition lessonNoSkip : Lesson :=
  {| lesson_id := "l-1";
     lesson_latitude := 41.3;
     lesson_longitude := 69.2;
     radius_meters := Some 120;
     fake_detection_level := Some "medium";
     allow_skip_gps := false;
     pin_validity_seconds := Some 60 |}%float.

Definition classroom (lesson : Lesson) : App :=
  {| user := Some student;
     findActiveLesson := fun pin => if (pin =? "123456")%string then Some lesson else None;
     getFingerprint := Some "5f2c";
     Date_now := 1700000000000%float |}.

End Scenario.

(** ** [handlePinChange] of [src/pages/student/Checkin.tsx] *)

Module PinEntry.

Import JS.
Local Open Scope string_scope.

(** The characters that the pattern [\D] does not match. *)
Definition isDigit (c : ascii) : bool :=
  let n := nat_of_ascii c in Nat.leb 48 n && Nat.leb n 57.

(** [value.replace(/\D/g, "")] *)
Fixpoint removeNonDigits (value : string) : string :=
  match value with
  | EmptyString => EmptyString
  | String c rest =>
      if isDigit c then String c (removeNonDigits rest) else removeNonDigits rest
  end.

(** [s.slice(0, n)] *)
Fixpoint slice0 (n : nat) (s : string) : string :=
  match n, s with
  | S k, String c rest => String c (slice0 k rest)
  | _, _ => EmptyString
  end.

(** What one change of the input field does: the value handed to [setPin]
    and, when the handler starts a check-in, the arguments of that call of
    [handleCheckin] (its second parameter takes its default). *)
Record PinChange := {
  pin : string;
  started : option (string * bool)
}.

Definition handlePinChange (value : string) : PinChange :=
  let cleaned := slice0 6 (removeNonDigits value) in
  {| pin := cleaned;
     started := if (String.length cleaned =? 6)%nat then Some (cleaned, false) else None |}.

End PinEntry.

(** ** Browser helpers of the authentication library ([@/lib/auth]) *)

Module Browser.

Import JS Async Checkin.
Local Open Scope string_scope.

(** [isAllowedBrowser] *)
Definition isAllowedBrowser (nav : Navigator) (role : string) : bool :=
  let userAgent := toLowerCase (userAgent nav) in
  let isChrome := includes userAgent "chrome" && negb (includes userAgent "edg") in
  let isSafari := includes userAgent "safari" && negb (includes userAgent "chrome") in
  let isMobile := isMobileDevice nav in
  if (role =? "student")%string then isMobile && (isChrome || isSafari)
  else isChrome || (isMobile && isSafari).

(** The state [isMobile] that the effect of [StudentCheckin] sets. *)
Definition pageIsMobile (nav : Navigator) : bool :=
  let mobile := isMobileDevice nav in
  let allowed := isAllowedBrowser nav "student" in
  mobile && allowed.

Definition hexDigit (d : N) : ascii :=
  if (d <? 10)%N then ascii_of_N (48 + d) else ascii_of_N (87 + d).

(** [b.toString(16)] for an element of a [Uint8Array]. *)
Definition toString16 (b : byte) : string :=
  let n := Byte.to_N b in
  if (n <? 16)%N then String (hexDigit n) EmptyString
  else String (hexDigit (n / 16)) (String (hexDigit (n mod 16)) EmptyString).

Fixpoint repeat_char (c : ascii) (n : nat) : string :=
  match n with
  | 0 => EmptyString
  | S k => String c (repeat_char c k)
  end.

(** [s.padStart(targetLength, c)] for a one-character pad. *)
Definition padStart (targetLength : nat) (c : ascii) (s : string) : string :=
  repeat_char c (targetLength - String.length s) ++ s.

(** [Array.from(bytes, b => b.toString(16).padStart(2, "0")).join("")] *)
Fixpoint hex (bytes : list byte) : string :=
  match bytes with
  | [] => EmptyString
  | b :: rest => padStart 2 "0"%char (toString16 b) ++ hex rest
  end.

(** [generateToken], given the bytes [crypto.getRandomValues] writes. *)
Definition generateToken (random : nat -> byte) : string :=
  let array := map random (seq 0 32) in
  hex array.

Definition decimalDigit (d : N) : ascii := ascii_of_N (48 + d).

Fixpoint decimal_from (fuel : nat) (n : N) : string :=
  match fuel with
  | 0 => EmptyString
  | S k =>
      if (n <? 10)%N then String (decimalDigit n) EmptyString
      else decimal_from k (n / 10) ++ String (decimalDigit (n mod 10)) EmptyString
  end.

(** [n.toString()] for a non-negative integer: its decimal digits. The fuel
    exceeds the number of digits. *)
Definition toString10 (n : N) : string :=
  decimal_from (S (N.to_nat (N.log2 n))) n.

(** [generatePIN], given the bytes [crypto.getRandomValues] writes. *)
Definition generatePIN (random : nat -> byte) : string :=
  let a0 := Byte.to_N (random 0) in
  let a1 := Byte.to_N (random 1) in
  let a2 := Byte.to_N (random 2) in
  let num := (N.lor (N.lor (N.shiftl a0 16) (N.shiftl a1 8)) a2 mod 1000000)%N in
  padStart 6 "0"%char (toString10 num).

(** The device properties [getFingerprint] reads. *)
Record DeviceTraits := {
  language : string;
  screen_width : number;
  screen_height : number;
  screen_colorDepth : number;
  timezoneOffset : number;
  hardwareConcurrency : option number;
  maxTouchPoints : option number
}.

(** [getFingerprint], given the answer of [crypto.subtle.digest] for the
    encoded text ([None] when it rejects). *)
Definition getFingerprint (js : Engine) (nav : Navigator) (dev : DeviceTraits)
    (digest : list byte -> option (list byte)) : option string :=
  let components :=
    [userAgent nav;
     language dev;
     Number_toString js (screen_width dev);
     Number_toString js (screen_height dev);
     Number_toString js (screen_colorDepth dev);
     Number_toString js (timezoneOffset dev);
     Number_toString js (or_default (hardwareConcurrency dev) 0%float);
     Number_toString js (or_default (maxTouchPoints dev) 0%float)] in
  let data := join components "|" in
  match digest (list_byte_of_string data) with
  | Some hashArray => Some (hex hashArray)
  | None => None
  end.

End Browser.

(** ** [checkLocationWithinRadius] and [diagnoseGPSSystem] *)

Module Geofence.

Import JS Geolocation Async Classifier Checkin.
Local Open Scope string_scope.

Record LocationCheckResult := {
  isWithinRadius : bool;
  distance : number;
  isFakeGPS : bool;
  suspiciousReasons : list string
}.

Definition checkLocationWithinRadius
    (targetLat targetLon radiusMeters : number) (detectionLevel : option string)
  : M Machine LocationCheckResult :=
  let detectionLevel := match detectionLevel with Some l => l | None => "medium" end in
  try_catch
    (location <- (p <- getCurrentLocation ;; await p) ;;
     suspiciousCheck <- detectSuspiciousGPS (Some detectionLevel) None None None ;;
     pf <- platform ;;
     let distance :=
       calculateDistance (engine pf)
         (latitude location) (longitude location) targetLat targetLon in
     let isWithinRadius := PrimFloat.leb distance radiusMeters in
     let suspiciousReasons :=
       if negb isWithinRadius then
         ["Darsdan " ++
          Number_toString (engine pf) (Math_round (engine pf) distance) ++ "m uzoqda"]
       else [] in
     ret {| isWithinRadius := isWithinRadius;
            distance := distance;
            isFakeGPS := isSuspicious suspiciousCheck;
            suspiciousReasons := (suspiciousReasons ++ reasons suspiciousCheck)%list |})
    (fun error =>
       ret {| isWithinRadius := false;
              distance := (-1)%float;
              isFakeGPS := false;
              suspiciousReasons := [exn_message error] |}).

Inductive PermissionState := granted | denied | prompt.

(** What [diagnoseGPSSystem] reads besides [navigator]: the page's address
    and the Permissions API, when the browser has one; its query for the
    geolocation permission answers with a state or throws ([None]). *)
Record Page := {
  protocol : string;
  hostname : string;
  permissions : option (option PermissionState)
}.

Record Diagnosis := {
  isSupported : bool;
  hasPermission : bool;
  isHTTPS : bool;
  browserInfo : string;
  recommendations : list string
}.

Definition diagnoseGPSSystem (nav : Navigator) (page : Page) : Diagnosis :=
  let isHTTPS := (protocol page =? "https:")%string || (hostname page =? "localhost")%string in
  let browserInfo := userAgent nav in
  let r1 :=
    if negb isHTTPS
    then ["HTTPS protokol talab qilinadi. Localhost yoki HTTPS ishlatishingiz kerak."]
    else [] in
  let isSupported := match geolocation nav with Some _ => true | None => false end in
  let r2 :=
    if negb isSupported
    then ["Brauzeringiz Geolocation API qo'llab-quvvatlamaydi. Zamonaviy brauzer ishlating."]
    else [] in
  let '(hasPermission, r3) :=
    match permissions page with
    | Some (Some granted) => (true, [])
    | Some (Some denied) =>
        (false, ["GPS ruxsati rad etilgan. Brauzer sozlamalaridan ruxsat bering."])
    | Some (Some prompt) =>
        (false, ["GPS ruxsati so'ralmagan. Darsni boshlaganda ruxsat bering."])
    | Some None =>
        (false, ["Ruxsat holatini tekshirib bo'lmadi. Brauzer sozlamalarini tekshiring."])
    | None =>
        (false, ["Ruxsat API qo'llab-quvvatlanmaydi. Brauzer sozlamalaridan GPS ni yoqing."])
    end in
  {| isSupported := isSupported;
     hasPermission := hasPermission;
     isHTTPS := isHTTPS;
     browserInfo := browserInfo;
     recommendations := (r1 ++ r2 ++ r3)%list |}.

End Geofence.

(** ** Vocabulary of the further properties *)

Module Shape.

Import JS Geolocation Async Classifier Checkin Observe PinEntry Browser Geofence.
Local Open Scope string_scope.

(** Every character of a string satisfies a test. *)
Fixpoint allChars (p : ascii -> bool) (s : string) : bool :=
  match s with
  | EmptyString => true
  | String c rest => p c && allChars p rest
  end.

Definition isLowerHex (c : ascii) : bool :=
  let n := nat_of_ascii c in
  (Nat.leb 48 n && Nat.leb n 57) || (Nat.leb 97 n && Nat.leb n 102).

Definition hexValue (c : ascii) : option N :=
  let n := N_of_ascii c in
  if (48 <=? n)%N && (n <=? 57)%N then Some (n - 48)%N
  else if (97 <=? n)%N && (n <=? 102)%N then Some (n - 87)%N
  else None.

(** Reading two hexadecimal digits back as a byte. *)
Definition unhexPair (hi lo : ascii) : option byte :=
  match hexValue hi, hexValue lo with
  | Some h, Some l => Byte.of_N (16 * h + l)
  | _, _ => None
  end.

(** Reading a string of hexadecimal digit pairs back as bytes. *)
Fixpoint unhex (s : string) : option (list byte) :=
  match s with
  | EmptyString => Some []
  | String hi (String lo rest) =>
      match unhexPair hi lo, unhex rest with
      | Some b, Some bs => Some (b :: bs)
      | _, _ => None
      end
  | String _ EmptyString => None
  end.

(** The number a string of decimal digits denotes. *)
Fixpoint decimalValue_from (acc : N) (s : string) : N :=
  match s with
  | EmptyString => acc
  | String c rest => decimalValue_from (10 * acc + (N_of_ascii c - 48))%N rest
  end.

Definition decimalValue (s : string) : N := decimalValue_from 0 s.

(** The 24-bit number [generatePIN] builds from its three random bytes. *)
Definition pinNumber (random : nat -> byte) : N :=
  N.lor (N.lor (N.shiftl (Byte.to_N (random 0)) 16)
               (N.shiftl (Byte.to_N (random 1)) 8))
        (Byte.to_N (random 2)).

(** The four reasons an indicator can push. *)
Definition indicatorReasons : list string :=
  ["Emulator/Simulator aniqlandi";
   "Mumkin bo'lmagan GPS aniqligi (0 metr)";
   "Mumkin bo'lmagan yuqori aniqlik";
   "GPS ko'rsatkichlari sun'iy ravishda bir xil"].

(** The reasons pushed before the two further readings are requested. *)
Definition earlyIndicators (ua : string) (l0 : LocationData) : list string :=
  ((if isEmulator (toLowerCase ua) then ["Emulator/Simulator aniqlandi"] else []) ++
   (if PrimFloat.eqb (accuracy l0) 0 then ["Mumkin bo'lmagan GPS aniqligi (0 metr)"] else []) ++
   (if PrimFloat.ltb (accuracy l0) 0.1 then ["Mumkin bo'lmagan yuqori aniqlik"] else []))%list.

(** The machine after one request was issued and awaited. *)
Definition after_request (m : Machine) : Machine :=
  {| issued := S (issued m);
     trace := (trace m ++ [Requested (issued m); Awaited [issued m]])%list |}.

(** Two lessons that differ at most in their detection level and in the
    validity of their PIN. *)
Definition same_geofence (a b : Lesson) : Prop :=
  lesson_id a = lesson_id b /\
  lesson_latitude a = lesson_latitude b /\
  lesson_longitude a = lesson_longitude b /\
  radius_meters a = radius_meters b /\
  allow_skip_gps a = allow_skip_gps b.

End Shape.

(** ** Further devices *)

Module Cases.

Import JS Geolocation Async Classifier Checkin Browser Geofence.
Local Open Scope string_scope.

Definition edgeDesktop : Navigator :=
  {| userAgent := "Mozilla/5.0 (Windows NT 10.0; Win64; x64) AppleWebKit/537.36 (KHTML, like Gecko) Chrome/120.0.0.0 Safari/537.36 Edg/120.0.0.0";
     geolocation := None |}.

Definition chromeAndroid : Navigator :=
  {| userAgent := Scenario.phone; geolocation := Some Scenario.jitteringGPS |}.

(** A sensor that refuses permission. *)
Definition deniedGPS (_ : nat) (_ : PositionOptions) : PositionResult :=
  PositionError {| code := PERMISSION_DENIED; message := "User denied Geolocation" |}.

(** A sensor that times out under high accuracy and answers under low
    accuracy. *)
Definition slowGPS (n : nat) (options : PositionOptions) : PositionResult :=
  if enableHighAccuracy options
  then PositionError {| code := TIMEOUT; message := "Timeout expired" |}
  else Scenario.jitteringGPS n options.

(** A sensor whose first three requests succeed and whose later ones are
    refused. *)
Definition revokedGPS (n : nat) (options : PositionOptions) : PositionResult :=
  if Nat.ltb n 3 then Scenario.jitteringGPS n options else deniedGPS n options.

Definition teacher : User := {| user_id := "t-1"; role := "teacher" |}.

Definition staffroom (lesson : Lesson) : App :=
  {| user := Some teacher;
     findActiveLesson := fun pin => if (pin =? "123456")%string then Some lesson else None;
     Checkin.getFingerprint := Some "5f2c";
     Date_now := 1700000000000%float |}.

Definition lessonMaximal : Lesson :=
  {| lesson_id := "l-1";
     lesson_latitude := 41.3;
     lesson_longitude := 69.2;
     radius_meters := Some 120;
     fake_detection_level := Some "maximal";
     allow_skip_gps := false;
     pin_validity_seconds := Some 30 |}%float.

(** Random bytes for the examples. *)
Definition dice (i : nat) : byte :=
  match i with
  | 0 => x0f
  | 1 => x42
  | 2 => x41
  | _ => xa7
  end.

(** A digest for the examples: 32 fixed bytes whatever the text. *)
Definition fixedDigest (_ : list byte) : option (list byte) :=
  Some (List.repeat xab 32).

Definition pixel : DeviceTraits :=
  {| language := "uz-UZ";
     screen_width := 412;
     screen_height := 915;
     screen_colorDepth := 24;
     timezoneOffset := -300;
     hardwareConcurrency := Some 8;
     maxTouchPoints := Some 5 |}%float.

(** A lesson whose radius is exactly the distance of the fourth reading of
    the genuine sensor. *)
Definition lessonAtEdge : Lesson :=
  {| lesson_id := "l-3";
     lesson_latitude := 41.3;
     lesson_longitude := 69.2;
     radius_meters :=
       Some (calculateDistance Scenario.sampleEngine 41.30001 69.20001 41.3 69.2);
     fake_detection_level := Some "medium";
     allow_skip_gps := false;
     pin_validity_seconds := Some 60 |}%float.

(** A sensor that refuses permission under high accuracy and would answer
    under low accuracy. *)
Definition deniedBehindFallback (n : nat) (options : PositionOptions) : PositionResult :=
  if enableHighAccuracy options then deniedGPS n options
  else Scenario.jitteringGPS n options.

Definition securePage : Page :=
  {| protocol := "https:"; hostname := "cybercheck-uni.vercel.app";
     permissions := Some (Some granted) |}.

End Cases.

(** ** The controls of the page that start a check-in *)

Module Render.

Import JS Checkin PinEntry.
Local Open Scope string_scope.

(** [checkResult?.lesson]: the state [checkResult] is [null] or an object
    with the fields [success], [message] and [status]. It has no [lesson],
    so the chain yields [undefined] either way. *)
Definition checkResult_lesson (checkResult : option CheckResult) : option Lesson :=
  match checkResult with
  | Some _ => None
  | None => None
  end.

(** What the component returns, as far as starting a check-in goes: the
    notice for other devices, the result with its retry button (which only
    resets [checkResult]), or the PIN form, with or without the skip
    button. *)
Inductive View :=
| MobileOnly
| Result (shown : CheckResult)
| PinForm (skipButton : bool).

(** The [return] statements of [StudentCheckin]. The skip button sits in the
    arm of [checkResult ? ... : ...] that is taken when [checkResult] is
    falsy, under the guard [checkResult?.lesson?.allow_skip_gps]. *)
Definition render (isMobile : bool) (checkResult : option CheckResult) : View :=
  if negb isMobile then MobileOnly
  else
    match checkResult with
    | Some shown => Result shown
    | None =>
        PinForm match checkResult_lesson checkResult with
                | Some lesson => allow_skip_gps lesson
                | None => false
                end
    end.

(** What the student does with the page. *)
Inductive Action :=
| TypePin (value : string)
| PressSkip.

(** The call of [handleCheckin] an action leads to, if any, with its two
    arguments: [onChange] of the input runs [handlePinChange], [onClick] of
    the skip button runs [handleCheckin(pin, true)] unless the button is
    disabled by [pin.length !== 6]. *)
Definition onAction (view : View) (pin : string) (action : Action)
  : option (string * bool) :=
  match view, action with
  | PinForm _, TypePin value => started (handlePinChange value)
  | PinForm true, PressSkip =>
      if (String.length pin =? 6)%nat then Some (pin, true) else None
  | _, _ => None
  end.

End Render.

(** ** Vocabulary of the distance, the decision and the fingerprint *)

Module Terms.

Import JS Geolocation Async Classifier Checkin Browser.
Local Open Scope string_scope.

(** The local [a] of [calculateDistance]: the argument of its two square
    roots. *)
Definition haversine (js : Engine) (lat1 lon1 lat2 lon2 : number) : number :=
  (let phi1 := lat1 * Math_PI / 180 in
   let phi2 := lat2 * Math_PI / 180 in
   let dphi := (lat2 - lat1) * Math_PI / 180 in
   let dlambda := (lon2 - lon1) * Math_PI / 180 in
   Math_sin js (dphi / 2) * Math_sin js (dphi / 2) +
   Math_cos js phi1 * Math_cos js phi2 *
     Math_sin js (dlambda / 2) * Math_sin js (dlambda / 2))%float.

(** The radius the geofence test of [handleCheckin] uses,
    [lesson.radius_meters || 120]: the lesson's radius, or 120 when the
    column is null, a zero or [NaN]. *)
Definition allowedRadius (lesson : Lesson) : number :=
  match radius_meters lesson with
  | Some r => if (PrimFloat.eqb r 0 || PrimFloat.is_nan r)%bool then 120%float else r
  | None => 120%float
  end.

(** [text] is the items of a list, in order, with [sep] between each two
    neighbours. *)
Inductive separated (sep : string) : list string -> string -> Prop :=
| separated_none : separated sep [] ""
| separated_one (x : string) : separated sep [x] x
| separated_more (x y : string) (rest : list string) (text : string) :
    separated sep (y :: rest) text ->
    separated sep (x :: y :: rest) (x ++ sep ++ text).

(** [x || 0] for an optional count. *)
Definition orZero (x : option number) : number :=
  match x with
  | Some v => if (PrimFloat.eqb v 0 || PrimFloat.is_nan v)%bool then 0%float else v
  | None => 0%float
  end.

(** The text [getFingerprint] hashes: the eight device properties, with a
    bar between each two. *)
Definition deviceText (js : Engine) (nav : Navigator) (dev : DeviceTraits) : string :=
  userAgent nav ++ "|" ++
  language dev ++ "|" ++
  Number_toString js (screen_width dev) ++ "|" ++
  Number_toString js (screen_height dev) ++ "|" ++
  Number_toString js (screen_colorDepth dev) ++ "|" ++
  Number_toString js (timezoneOffset dev) ++ "|" ++
  Number_toString js (orZero (hardwareConcurrency dev)) ++ "|" ++
  Number_toString js (orZero (maxTouchPoints dev)).

End Terms.

(** ** A pair of points almost opposite on the globe, and further lessons *)

Module Antipodes.

Import JS Geolocation Async Classifier Checkin.
Local Open Scope string_scope.

(** An engine for the points (-8, 0) and (8, 180). At the arguments that
    pair leads to, its sine and cosine are the exact values rounded to the
    nearest binary64 number:
    sin 0.13962634015954636 = 0.13917310096006544,
    cos 0.13962634015954636 = 0.99026806874157036 and
    sin 1.5707963267948966 = 1; its sine is odd and its cosine even.
    Elsewhere it keeps the small-angle approximation of the examples. Its
    [atan2] is the magnitude of the quotient, which is [NaN] as soon as an
    argument is; it rounds and prints [NaN] as [NaN]. *)
Definition tabulated : Engine :=
  {| Math_sin := fun x =>
       (if PrimFloat.abs x =? 0x1.1df46a2529d39p-3 then
          if x <? 0 then -0x1.1d06c968d9e19p-3 else 0x1.1d06c968d9e19p-3
        else if PrimFloat.abs x =? 0x1.921fb54442d18p+0 then
          if x <? 0 then -1 else 1
        else x)%float;
     Math_cos := fun x =>
       (if PrimFloat.abs x =? 0x1.1df46a2529d39p-3 then 0x1.fb046a930947ap-1
        else 1 - x * x / 2)%float;
     Math_atan2 := fun y x => PrimFloat.abs (y / x)%float;
     Math_round := fun x =>
       if PrimFloat.is_nan x then x else Math_round Scenario.sampleEngine x;
     Number_toString := fun x =>
       if PrimFloat.is_nan x then "NaN" else Number_toString Scenario.sampleEngine x |}.

(** A genuine sensor at (-8, 0). *)
Definition antipodalGPS (n : nat) (_ : PositionOptions) : PositionResult :=
  match n with
  | 0 => Position (Scenario.reading (-8.00001) 0.00001 12)
  | 1 => Position (Scenario.reading (-8.00001) 0 12)
  | 2 => Position (Scenario.reading (-8.00002) 0.00001 15)
  | _ => Position (Scenario.reading (-8) 0 12)
  end%float.

Definition antipodalPhone : Platform :=
  {| engine := tabulated;
     navigator := {| userAgent := Scenario.phone; geolocation := Some antipodalGPS |} |}.

(** A lesson at (8, 180), with a radius of 120 m. *)
Definition lessonOpposite : Lesson :=
  {| lesson_id := "l-4";
     lesson_latitude := 8;
     lesson_longitude := 180;
     radius_meters := Some 120;
     fake_detection_level := Some "medium";
     allow_skip_gps := false;
     pin_validity_seconds := Some 60 |}%float.

(** A lesson whose radius column holds 0. *)
Definition lessonZeroRadius : Lesson :=
  {| lesson_id := "l-5";
     lesson_latitude := 41.3;
     lesson_longitude := 69.2;
     radius_meters := Some 0;
     fake_detection_level := Some "medium";
     allow_skip_gps := false;
     pin_validity_seconds := Some 60 |}%float.

(** A lesson with a radius of 250 m. *)
Definition lessonWide : Lesson :=
  {| lesson_id := "l-6";
     lesson_latitude := 41.3;
     lesson_longitude := 69.2;
     radius_meters := Some 250;
     fake_detection_level := Some "medium";
     allow_skip_gps := false;
     pin_validity_seconds := Some 60 |}%float.

(** A digest that is refused. *)
Definition refusedDigest (_ : list byte) : option (list byte) := None.

End Antipodes.

(** * Properties *)

Import JS Geolocation Async Classifier Checkin Observe.

(** ** Comparisons of binary64 values *)

Section FloatFacts.

Local Open Scope float_scope.

Lemma SFeqb_refl (x : spec_float) : x <> S754_nan -> SFeqb x x = true.
Proof.
  destruct x as [s | s | | s m e]; intros Hnan; try congruence.
  - destruct s; reflexivity.
  - destruct s; reflexivity.
  - unfold SFeqb, SFcompare.
    destruct s; rewrite Z.compare_refl, Pos.compare_refl; reflexivity.
Qed.

Lemma SFltb_not_nan_r (x y : spec_float) : SFltb x y = true -> y <> S754_nan.
Proof.
  intros H ->. destruct x as [s | s | | s m e]; try destruct s; discriminate.
Qed.

Lemma SFltb_not_nan_l (x y : spec_float) : SFltb x y = true -> x <> S754_nan.
Proof.
  intros H ->. discriminate.
Qed.

(** A number that compares below or above another one is not [NaN]. *)
Lemma ltb_is_nan_r (x y : float) : (x <? y) = true -> is_nan y = false.
Proof.
  intros H. unfold is_nan. rewrite FloatAxioms.eqb_spec.
  rewrite FloatAxioms.ltb_spec in H.
  rewrite SFeqb_refl; [reflexivity | eapply SFltb_not_nan_r; eassumption].
Qed.

Lemma ltb_is_nan_l (x y : float) : (x <? y) = true -> is_nan x = false.
Proof.
  intros H. unfold is_nan. rewrite FloatAxioms.eqb_spec.
  rewrite FloatAxioms.ltb_spec in H.
  rewrite SFeqb_refl; [reflexivity | eapply SFltb_not_nan_l; eassumption].
Qed.

(** A number above 200 is not a zero. *)
Lemma above_200_nonzero (r : float) : (200 <? r) = true -> (r =? 0) = false.
Proof.
  intros H. rewrite FloatAxioms.ltb_spec in H. rewrite FloatAxioms.eqb_spec.
  destruct (Prim2SF r) as [s | s | | s m e]; try destruct s;
    vm_compute in H |- *; congruence.
Qed.

(** For the radius, the truthiness test of [x && x > 200] is redundant. *)
Lemma and_gt_200 (x : option number) :
  and_gt x 200 = match x with Some r => 200 <? r | None => false end.
Proof.
  destruct x as [r |]; [| reflexivity].
  unfold and_gt, truthy.
  destruct (200 <? r) eqn:Hgt.
  - rewrite (above_200_nonzero r Hgt), (ltb_is_nan_r _ _ Hgt). reflexivity.
  - apply andb_false_r.
Qed.

(** For the PIN validity, the truthiness test of [x && x < 60] excludes the
    zeros and nothing else. *)
Lemma and_lt_60 (x : option number) :
  and_lt x 60 =
  match x with Some p => (p <? 60) && negb (p =? 0) | None => false end.
Proof.
  destruct x as [p |]; [| reflexivity].
  unfold and_lt, truthy.
  destruct (p <? 60) eqn:Hlt.
  - rewrite (ltb_is_nan_l _ _ Hlt), orb_false_r, andb_true_r. reflexivity.
  - rewrite andb_false_r. reflexivity.
Qed.

Lemma SFcompare_antisym (x y : spec_float) :
  SFcompare y x = option_map CompOpp (SFcompare x y).
Proof.
  destruct x as [s | s | | s m e], y as [s' | s' | | s' m' e']; cbn;
    try destruct s; try destruct s'; try reflexivity.
  all: rewrite (Z.compare_antisym e e'); destruct (e ?= e')%Z; cbn; try reflexivity.
  all: pose proof (Pos.compare_cont_antisym m m' Eq) as H; cbn in H; rewrite <- H.
  - rewrite CompOpp_involutive. reflexivity.
  - reflexivity.
Qed.

(** Away from [NaN], [x <= y] fails exactly when [y < x] holds. *)
Lemma leb_negb_ltb (x y : float) :
  is_nan x = false -> is_nan y = false -> (x <=? y) = negb (y <? x).
Proof.
  unfold is_nan.
  rewrite !FloatAxioms.eqb_spec, FloatAxioms.leb_spec, FloatAxioms.ltb_spec.
  unfold SFeqb, SFleb, SFltb.
  rewrite (SFcompare_antisym (Prim2SF x) (Prim2SF y)).
  intros Hx Hy.
  destruct (SFcompare (Prim2SF x) (Prim2SF y)) as [[ | | ] | ] eqn:E;
    try reflexivity.
  destruct (Prim2SF x) as [s | s | | s m e], (Prim2SF y) as [s' | s' | | s' m' e'];
    cbn in *; discriminate.
Qed.

(** Whenever the radius is below the distance, the distance is not within
    the radius. *)
Lemma ltb_not_leb (x y : float) : (y <? x) = true -> (x <=? y) = false.
Proof.
  intros H.
  rewrite (leb_negb_ltb x y (ltb_is_nan_r _ _ H) (ltb_is_nan_l _ _ H)), H.
  reflexivity.
Qed.

End FloatFacts.

(** ** Strings *)

Section StringFacts.

Local Open Scope string_scope.

Lemma includes_unfold (s sub : string) :
  includes s sub =
  String.prefix sub s ||
  match s with
  | EmptyString => false
  | String _ rest => includes rest sub
  end.
Proof.
  destruct s; reflexivity.
Qed.

Lemma prefix_append (x b : string) : String.prefix x (x ++ b) = true.
Proof.
  induction x as [| c x IH]; cbn.
  - destruct b; reflexivity.
  - destruct (ascii_dec c c) as [_ | Hne]; [exact IH | congruence].
Qed.

(** A string includes each piece it was concatenated from. *)
Lemma includes_append (a x b : string) : includes (a ++ x ++ b) x = true.
Proof.
  induction a as [| c a IH].
  - cbn [append]. rewrite includes_unfold, prefix_append. reflexivity.
  - cbn [append]. rewrite includes_unfold. cbn iota. rewrite IH.
    apply orb_true_r.
Qed.

Lemma append_assoc (a b c : string) : (a ++ b) ++ c = a ++ b ++ c.
Proof.
  induction a as [| x a IH]; cbn; [| rewrite IH]; reflexivity.
Qed.

End StringFacts.

(** ** Threshold profiles *)

Section Thresholds.

Local Open Scope string_scope.
Local Open Scope float_scope.

(** C6. [getDetectionThresholds] returns the base table of the
    specification for the three named levels, and the medium profile for
    every other level; being a function of its argument alone, equal levels
    give equal profiles. *)
Theorem getDetectionThresholds_table :
  getDetectionThresholds "minimal" =
    {| accuracyThreshold := 1.0; maxAccuracy := 20000;
       varianceThreshold := 1e-6; timestampThreshold := 100 |} /\
  getDetectionThresholds "medium" =
    {| accuracyThreshold := 3.0; maxAccuracy := 15000;
       varianceThreshold := 1e-5; timestampThreshold := 200 |} /\
  getDetectionThresholds "maximal" =
    {| accuracyThreshold := 5.0; maxAccuracy := 10000;
       varianceThreshold := 1e-4; timestampThreshold := 500 |} /\
  (forall level : string,
      level <> "minimal" -> level <> "medium" -> level <> "maximal" ->
      getDetectionThresholds level = getDetectionThresholds "medium").
Proof.
  repeat split.
  intros level Hmin Hmed Hmax. unfold getDetectionThresholds.
  apply String.eqb_neq in Hmin, Hmed, Hmax.
  rewrite Hmin, Hmed, Hmax. reflexivity.
Qed.

(** An unknown level resolves as ['medium'] does. *)
Lemma getDetectionThresholds_bogus :
  getDetectionThresholds "bogus" = getDetectionThresholds "medium".
Proof.
  apply (proj2 (proj2 (proj2 getDetectionThresholds_table))); discriminate.
Defined.

(** C7, as the code has it. The adjusted profile multiplies
    [varianceThreshold] by 10 exactly when a radius is given and is above
    200, and halves [timestampThreshold] exactly when a PIN validity is
    given, is not zero and is below 60; each field depends on its own
    argument only, and the two other fields are copied. *)
Theorem adjustedThresholds_fields
    (base : DetectionThresholds) (teacherRadius pinValiditySeconds : option number) :
  let adjusted := adjustedThresholds base teacherRadius pinValiditySeconds in
  varianceThreshold adjusted =
    (if match teacherRadius with Some r => 200 <? r | None => false end
     then varianceThreshold base * 10 else varianceThreshold base) /\
  timestampThreshold adjusted =
    (if match pinValiditySeconds with
        | Some p => (p <? 60) && negb (p =? 0)
        | None => false
        end
     then timestampThreshold base / 2 else timestampThreshold base) /\
  accuracyThreshold adjusted = accuracyThreshold base /\
  maxAccuracy adjusted = maxAccuracy base.
Proof.
  cbn. rewrite and_gt_200, and_lt_60. repeat split.
Qed.

(** C7 as stated fails for a PIN validity of zero seconds: zero is below 60,
    yet the medium profile keeps its [timestampThreshold] of 200, which is
    not the halved value. *)
Lemma adjustedThresholds_zero_validity :
  (0 <? 60) = true /\
  timestampThreshold
    (adjustedThresholds (getDetectionThresholds "medium") None (Some 0)) = 200 /\
  (timestampThreshold
     (adjustedThresholds (getDetectionThresholds "medium") None (Some 0)) =?
   timestampThreshold (getDetectionThresholds "medium") / 2) = false.
Proof.
  repeat split.
Qed.

(** Both adjustments on one profile: a radius of 250 and a validity of 30
    seconds on the medium profile. *)
Example adjustedThresholds_both :
  adjustedThresholds (getDetectionThresholds "medium") (Some 250) (Some 30) =
    {| accuracyThreshold := 3.0; maxAccuracy := 15000;
       varianceThreshold := 1e-5 * 10; timestampThreshold := 100 |}.
Proof.
  reflexivity.
Qed.

End Thresholds.

(** ** The classifier *)

Section ClassifierFacts.

Local Open Scope string_scope.
Local Open Scope list_scope.

Variable pf : Platform.

(** Unfolding the monadic plumbing. *)
Ltac run :=
  cbv beta iota zeta delta
    [collectIndicators requireMultipleIndicators detectSuspiciousGPS
     with_locals lift bind ret throw try_catch gets modify platform when
     set_isSuspicious reasons_push reasons_assign
     getCurrentLocation await await_all settle_all entry
     var_isSuspicious var_reasons machine issued trace fst snd].

(** Reads the reasons pushed before the failure off the computed verdict. *)
Ltac pushed_before_failure :=
  lazymatch goal with
  | |- exists rs, Normal {| isSuspicious := _; reasons := ?l ++ _ |} = _ =>
      exists l; reflexivity
  end.

Lemma trace_steps (t : list Event) (a b c d e : Event) :
  ((((t ++ [a]) ++ [b]) ++ [c]) ++ [d]) ++ [e] = t ++ [a; b; c; d; e].
Proof.
  repeat rewrite <- app_assoc. reflexivity.
Qed.

(** The indicator part of the [try] block, when the three acquisitions
    succeed: it pushes [indicators], raises [isSuspicious] when it pushed
    anything, and leaves the machine after three requests. *)
Lemma collectIndicators_succeeds (m : Machine) (l0 l1 l2 : LocationData) :
  acquisitions_succeed pf m l0 l1 l2 ->
  let inds := indicators (userAgent (navigator pf)) l0 l1 l2 in
  collectIndicators pf (entry m) =
    (Normal tt,
     {| var_isSuspicious := negb (Nat.eqb (List.length inds) 0);
        var_reasons := inds;
        machine := after_classification m |}).
Proof.
  destruct m as [n t]. intros (H0 & H1 & H2). cbn [issued] in H0, H1, H2.
  unfold indicators, after_classification, classification_trace.
  run.
  destruct (isEmulator (toLowerCase (userAgent (navigator pf))));
    run; rewrite H0; run;
    destruct (PrimFloat.eqb (accuracy l0) 0);
    destruct (PrimFloat.ltb (accuracy l0) 0.1);
    run; rewrite H1, H2; run;
    destruct (coordinatesIdentical l1 l2); run;
    rewrite trace_steps; reflexivity.
Qed.

Lemma accumulated_indicators (m : Machine) (l0 l1 l2 : LocationData) :
  acquisitions_succeed pf m l0 l1 l2 ->
  accumulated pf m = Some (indicators (userAgent (navigator pf)) l0 l1 l2).
Proof.
  intros H. unfold accumulated.
  rewrite (collectIndicators_succeeds m l0 l1 l2 H). reflexivity.
Qed.

(** The verdict of a run that is not exempt and whose three acquisitions
    succeed, as a function of the reasons accumulated. With fewer than two
    of them, [isSuspicious] is reset, the assignment to the [const] binding
    [reasons] throws, and the [catch] clause pushes its own reason. *)
Lemma detectSuspiciousGPS_run
    (level : option string) (teacherRadius pinValiditySeconds : option number)
    (userRole : option string) (m : Machine) (l0 l1 l2 : LocationData) :
  isExempt userRole = false ->
  acquisitions_succeed pf m l0 l1 l2 ->
  let inds := indicators (userAgent (navigator pf)) l0 l1 l2 in
  detectSuspiciousGPS level teacherRadius pinValiditySeconds userRole pf m =
    (Normal (if Nat.ltb (List.length inds) 2
             then {| isSuspicious := false;
                     reasons := inds ++ ["GPS tekshiruvida xatolik"] |}
             else {| isSuspicious := true; reasons := inds |}),
     after_classification m).
Proof.
  intros Hrole Hacq inds.
  unfold detectSuspiciousGPS, with_locals. rewrite Hrole.
  fold (entry m). unfold bind at 1. unfold try_catch. unfold bind at 1.
  rewrite (collectIndicators_succeeds m l0 l1 l2 Hacq). fold inds.
  unfold requireMultipleIndicators. run.
  destruct (Nat.ltb (List.length inds) 2) eqn:Hlen; run.
  - reflexivity.
  - destruct inds as [| r0 rest]; [discriminate Hlen | reflexivity].
Qed.

(** What the [catch] clause leaves behind after a failed acquisition: the
    reasons pushed before the failure followed by its own, and a flag that
    is raised exactly when some reason had been pushed. *)
Lemma detectSuspiciousGPS_failure
    (level : option string) (teacherRadius pinValiditySeconds : option number)
    (userRole : option string) (m : Machine) :
  isExempt userRole = false ->
  some_acquisition_fails pf m ->
  exists rs,
    verdict_of (detectSuspiciousGPS level teacherRadius pinValiditySeconds
                  userRole pf m) =
      Normal {| isSuspicious := negb (Nat.eqb (List.length rs) 0);
                reasons := rs ++ ["GPS tekshiruvida xatolik"] |}.
Proof.
  destruct m as [n t]. intros Hrole Hfail.
  unfold detectSuspiciousGPS, with_locals, verdict_of. rewrite Hrole.
  destruct Hfail as [(e & H0) | (l0 & e & H0 & H12)]; cbn [issued] in *.
  - run.
    destruct (isEmulator (toLowerCase (userAgent (navigator pf))));
      run; rewrite H0; run; pushed_before_failure.
  - cbn [settle_all] in H12. run.
    destruct (isEmulator (toLowerCase (userAgent (navigator pf))));
      run; rewrite H0; run;
      destruct (PrimFloat.eqb (accuracy l0) 0);
      destruct (PrimFloat.ltb (accuracy l0) 0.1);
      run;
      (destruct (settle pf (S n)) as [e1 | l1];
       [| destruct (settle pf (S (S n))) as [e2 | l2]; [| discriminate H12]]);
      run; pushed_before_failure.
Qed.

(** The promise of [detectSuspiciousGPS] never rejects: whatever happens in
    the [try] block, the function resolves to a verdict. *)
Lemma detectSuspiciousGPS_resolves
    (level : option string) (teacherRadius pinValiditySeconds : option number)
    (userRole : option string) (m : Machine) :
  exists verdict m',
    detectSuspiciousGPS level teacherRadius pinValiditySeconds userRole pf m =
      (Normal verdict, m').
Proof.
  unfold detectSuspiciousGPS, with_locals.
  destruct (isExempt userRole).
  - do 2 eexists. reflexivity.
  - unfold bind at 1. unfold try_catch.
    destruct ((collectIndicators ;; requireMultipleIndicators) pf
                {| var_isSuspicious := false; var_reasons := []; machine := m |})
      as [[[] | e] fr]; do 2 eexists; reflexivity.
Qed.

End ClassifierFacts.

Section ClassifierClaims.

Local Open Scope string_scope.
Local Open Scope list_scope.

(** The half of the corroboration rule that the code keeps: two or more
    accumulated reasons give a suspicious verdict carrying exactly those
    reasons. *)
Lemma corroborated_is_suspicious
    (pf : Platform) (level : option string)
    (teacherRadius pinValiditySeconds : option number)
    (m : Machine) (l0 l1 l2 : LocationData) (rs : list string) :
  acquisitions_succeed pf m l0 l1 l2 ->
  accumulated pf m = Some rs ->
  2 <= List.length rs ->
  verdict_of (detectSuspiciousGPS level teacherRadius pinValiditySeconds
                (Some "student") pf m) =
    Normal {| isSuspicious := true; reasons := rs |}.
Proof.
  intros Hacq Hrs Hlen.
  rewrite (accumulated_indicators pf m l0 l1 l2 Hacq) in Hrs.
  injection Hrs as <-.
  rewrite (detectSuspiciousGPS_run pf level teacherRadius pinValiditySeconds
             (Some "student") m l0 l1 l2 eq_refl Hacq).
  unfold verdict_of, fst.
  apply Nat.ltb_ge in Hlen. rewrite Hlen. reflexivity.
Qed.

(** The other half: with fewer than two accumulated reasons the verdict is
    not suspicious, and its reasons are the accumulated ones followed by
    the reason of the [catch] clause. *)
Lemma uncorroborated_is_cleared
    (pf : Platform) (level : option string)
    (teacherRadius pinValiditySeconds : option number)
    (m : Machine) (l0 l1 l2 : LocationData) (rs : list string) :
  acquisitions_succeed pf m l0 l1 l2 ->
  accumulated pf m = Some rs ->
  List.length rs < 2 ->
  verdict_of (detectSuspiciousGPS level teacherRadius pinValiditySeconds
                (Some "student") pf m) =
    Normal {| isSuspicious := false;
              reasons := rs ++ ["GPS tekshiruvida xatolik"] |}.
Proof.
  intros Hacq Hrs Hlen.
  rewrite (accumulated_indicators pf m l0 l1 l2 Hacq) in Hrs.
  injection Hrs as <-.
  rewrite (detectSuspiciousGPS_run pf level teacherRadius pinValiditySeconds
             (Some "student") m l0 l1 l2 eq_refl Hacq).
  unfold verdict_of, fst.
  apply Nat.ltb_lt in Hlen. rewrite Hlen. reflexivity.
Qed.

(** Accuracy 0 and frozen coordinates: three reasons, a suspicious verdict. *)
Example corroborated_on_frozen_sensor :
  verdict_of (detectSuspiciousGPS (Some "medium") (Some 120%float) (Some 60%float)
                (Some "student") Scenario.frozenPhone Scenario.start) =
    Normal {| isSuspicious := true;
              reasons := ["Mumkin bo'lmagan GPS aniqligi (0 metr)";
                          "Mumkin bo'lmagan yuqori aniqlik";
                          "GPS ko'rsatkichlari sun'iy ravishda bir xil"] |}.
Proof.
  eapply (corroborated_is_suspicious Scenario.frozenPhone).
  - repeat split; vm_compute; reflexivity.
  - vm_compute. reflexivity.
  - cbn. lia.
Defined.

(** An accuracy of exactly 0 is also below 0.1: on an otherwise genuine
    sensor it accumulates two reasons by itself, which passes the gate. *)
Example zero_accuracy_alone_is_suspicious :
  verdict_of (detectSuspiciousGPS (Some "medium") (Some 120%float) (Some 60%float)
                (Some "student") Scenario.zeroAccuracyPhone Scenario.start) =
    Normal {| isSuspicious := true;
              reasons := ["Mumkin bo'lmagan GPS aniqligi (0 metr)";
                          "Mumkin bo'lmagan yuqori aniqlik"] |}.
Proof.
  eapply (corroborated_is_suspicious Scenario.zeroAccuracyPhone).
  - repeat split; vm_compute; reflexivity.
  - vm_compute. reflexivity.
  - cbn. lia.
Defined.

(** An emulator with a genuine sensor: one reason, which the gate clears;
    the reason stays in the list and the reason of the [catch] clause
    follows it. *)
Example single_indicator_on_emulator :
  verdict_of (detectSuspiciousGPS (Some "medium") (Some 120%float) (Some 60%float)
                (Some "student")
                (Scenario.device Scenario.emulatorPhone Scenario.jitteringGPS)
                Scenario.start) =
    Normal {| isSuspicious := false;
              reasons := ["Emulator/Simulator aniqlandi";
                          "GPS tekshiruvida xatolik"] |}.
Proof.
  eapply (uncorroborated_is_cleared
            (Scenario.device Scenario.emulatorPhone Scenario.jitteringGPS)
            _ _ _ _ _ _ _ ["Emulator/Simulator aniqlandi"]).
  - repeat split; vm_compute; reflexivity.
  - vm_compute. reflexivity.
  - cbn. lia.
Defined.

(** C1, at a student's phone with a genuine sensor: the three
    acquisitions succeed and no indicator triggers, yet the verdict does
    not have an empty list of reasons. It is not suspicious, and it carries
    the reason of the [catch] clause, which the rejected assignment
    [reasons = []] leads into. *)
Theorem clean_run_keeps_catch_reason :
  (exists l0 l1 l2,
      acquisitions_succeed Scenario.genuinePhone Scenario.start l0 l1 l2) /\
  accumulated Scenario.genuinePhone Scenario.start = Some [] /\
  verdict_of (detectSuspiciousGPS (Some "medium") (Some 120%float) (Some 60%float)
                (Some "student") Scenario.genuinePhone Scenario.start) =
    Normal {| isSuspicious := false; reasons := ["GPS tekshiruvida xatolik"] |}.
Proof.
  split; [| split].
  - do 3 eexists. repeat split; vm_compute; reflexivity.
  - vm_compute. reflexivity.
  - vm_compute. reflexivity.
Qed.

(** C3, as the code has it. A classification whose acquisitions succeed
    issues its first request and suspends on it alone; once resumed it
    issues the two further requests one right after the other and suspends
    once on both. *)
Theorem classification_requests
    (pf : Platform) (level : option string)
    (teacherRadius pinValiditySeconds : option number)
    (m : Machine) (l0 l1 l2 : LocationData) :
  acquisitions_succeed pf m l0 l1 l2 ->
  trace_of (detectSuspiciousGPS level teacherRadius pinValiditySeconds
              (Some "student") pf m) =
    trace m ++
    [Requested (issued m); Awaited [issued m];
     Requested (S (issued m)); Requested (S (S (issued m)));
     Awaited [S (issued m); S (S (issued m))]].
Proof.
  intros Hacq.
  rewrite (detectSuspiciousGPS_run pf level teacherRadius pinValiditySeconds
             (Some "student") m l0 l1 l2 eq_refl Hacq).
  reflexivity.
Qed.

(** The requests of a classification on a phone with a genuine sensor. *)
Lemma classification_requests_on_phone :
  trace_of (detectSuspiciousGPS (Some "medium") None None (Some "student")
              Scenario.genuinePhone Scenario.start) =
    [Requested 0; Awaited [0]; Requested 1; Requested 2; Awaited [1; 2]].
Proof.
  eapply (classification_requests Scenario.genuinePhone
            (Some "medium") None None Scenario.start).
  repeat split; vm_compute; reflexivity.
Defined.

(** C3 as stated fails: on a phone whose three acquisitions succeed, the
    third request is issued while the second is still pending, so the
    trace of the classification is not sequential. *)
Lemma classification_not_sequential :
  (exists l0 l1 l2,
      acquisitions_succeed Scenario.genuinePhone Scenario.start l0 l1 l2) /\
  sequential
    (trace_of (detectSuspiciousGPS (Some "medium") None None (Some "student")
                 Scenario.genuinePhone Scenario.start)) = false.
Proof.
  split.
  - do 3 eexists. repeat split; vm_compute; reflexivity.
  - vm_compute. reflexivity.
Qed.

(** C4, at an emulator whose sensor fails: the first acquisition is
    rejected and the [catch] clause adds its reason, but the verdict stays
    suspicious on the single indicator raised before the failure. *)
Theorem failed_acquisition_keeps_flag :
  (exists e, settle Scenario.failingEmulator (issued Scenario.start) = inl e) /\
  verdict_of (detectSuspiciousGPS (Some "medium") (Some 120%float) (Some 60%float)
                (Some "student") Scenario.failingEmulator Scenario.start) =
    Normal {| isSuspicious := true;
              reasons := ["Emulator/Simulator aniqlandi";
                          "GPS tekshiruvida xatolik"] |}.
Proof.
  split.
  - eexists. vm_compute. reflexivity.
  - vm_compute. reflexivity.
Qed.

(** C5. For the roles teacher and admin, whatever the level, the radius and
    the PIN validity, [detectSuspiciousGPS] resolves to the fixed verdict
    and leaves the machine untouched: no request is issued and nothing is
    awaited. *)
Theorem exempt_roles_skip_detection
    (pf : Platform) (level : option string)
    (teacherRadius pinValiditySeconds : option number) (m : Machine) :
  detectSuspiciousGPS level teacherRadius pinValiditySeconds (Some "teacher") pf m =
    (Normal {| isSuspicious := false; reasons := [] |}, m) /\
  detectSuspiciousGPS level teacherRadius pinValiditySeconds (Some "admin") pf m =
    (Normal {| isSuspicious := false; reasons := [] |}, m).
Proof.
  destruct m as [n t]. split; reflexivity.
Qed.

(** C10. The verdict, and the whole run, do not depend on the radius or on
    the PIN validity: two calls that differ in these two arguments only
    are equal. *)
Theorem verdict_ignores_adjustments
    (pf : Platform) (level : option string)
    (teacherRadius pinValiditySeconds teacherRadius' pinValiditySeconds' : option number)
    (userRole : option string) (m : Machine) :
  detectSuspiciousGPS level teacherRadius pinValiditySeconds userRole pf m =
  detectSuspiciousGPS level teacherRadius' pinValiditySeconds' userRole pf m.
Proof.
  unfold detectSuspiciousGPS.
  destruct (isExempt userRole).
  - reflexivity.
  - (* [adjustedThresholds] is bound and never read *)
    cbv zeta. reflexivity.
Qed.

End ClassifierClaims.

(** ** The check-in decision *)

Section CheckinClaims.

Local Open Scope string_scope.

(** The normal GPS flow of [handleCheckin], up to the location and the
    verdict it works with. *)
Lemma locate_normal_flow
    (app : App) (lesson : Lesson) (pf : Platform) (m m1 : Machine)
    (verdict : Verdict) (location : LocationData) :
  detectSuspiciousGPS
    (Some (or_default_string (fake_detection_level lesson) "medium"))
    (radius_meters lesson) (pin_validity_seconds lesson)
    (option_map role (user app)) pf m = (Normal verdict, m1) ->
  settle pf (issued m1) = inr location ->
  verdict_of (locate lesson app false pf m) = Normal (inr (location, verdict)).
Proof.
  destruct m1 as [n1 t1]. cbn [issued]. intros Hdetect Hsettle.
  unfold locate, verdict_of.
  unfold bind at 1. rewrite Hdetect.
  cbv beta iota zeta delta
    [try_catch bind getCurrentLocation await gets modify platform ret
     issued trace].
  rewrite Hsettle. reflexivity.
Qed.



End CheckinClaims.

(** * Further properties *)

Import PinEntry Geofence Shape.

(** ** Strings, continued *)

Section StringShape.

Local Open Scope string_scope.

Lemma length_append (a b : string) :
  String.length (a ++ b) = String.length a + String.length b.
Proof.
  induction a as [| c a IH]; cbn; [| rewrite IH]; reflexivity.
Qed.

Lemma allChars_append (p : ascii -> bool) (a b : string) :
  allChars p (a ++ b) = allChars p a && allChars p b.
Proof.
  induction a as [| c a IH]; cbn; [| rewrite IH, andb_assoc]; reflexivity.
Qed.

Lemma length_repeat_char (c : ascii) (n : nat) : String.length (Browser.repeat_char c n) = n.
Proof.
  induction n as [| n IH]; cbn; [| rewrite IH]; reflexivity.
Qed.

Lemma allChars_repeat_char (p : ascii -> bool) (c : ascii) (n : nat) :
  p c = true -> allChars p (Browser.repeat_char c n) = true.
Proof.
  intros Hc. induction n as [| n IH]; cbn; [| rewrite Hc, IH]; reflexivity.
Qed.

Lemma length_slice0 (n : nat) (s : string) :
  String.length (slice0 n s) = Nat.min n (String.length s).
Proof.
  revert s. induction n as [| n IH]; intros [| c s]; cbn; try reflexivity.
  rewrite IH. reflexivity.
Qed.

Lemma allChars_slice0 (p : ascii -> bool) (n : nat) (s : string) :
  allChars p s = true -> allChars p (slice0 n s) = true.
Proof.
  revert s. induction n as [| n IH]; intros [| c s]; cbn; try reflexivity.
  intros H. apply andb_true_iff in H as [Hc Hs]. rewrite Hc, (IH s Hs). reflexivity.
Qed.

Lemma slice0_all (n : nat) (s : string) : String.length s <= n -> slice0 n s = s.
Proof.
  revert s. induction n as [| n IH]; intros [| c s]; cbn; try reflexivity.
  - intros H. lia.
  - intros H. rewrite IH; [reflexivity | lia].
Qed.

Lemma allChars_removeNonDigits (value : string) :
  allChars isDigit (removeNonDigits value) = true.
Proof.
  induction value as [| c value IH]; cbn; [reflexivity |].
  destruct (isDigit c) eqn:Hc; cbn; [rewrite Hc |]; exact IH.
Qed.

Lemma removeNonDigits_digits (s : string) :
  allChars isDigit s = true -> removeNonDigits s = s.
Proof.
  induction s as [| c s IH]; cbn; [reflexivity |].
  intros H. apply andb_true_iff in H as [Hc Hs]. rewrite Hc, (IH Hs). reflexivity.
Qed.

End StringShape.

(** ** The PIN field *)

Section PinField.

Local Open Scope string_scope.

(** X1. Whatever is typed or pasted, the PIN kept by the field consists of
    decimal digits only and is at most six characters long, and handing the
    kept value back to the handler changes nothing. *)
Theorem handlePinChange_cleans (value : string) :
  allChars isDigit (pin (handlePinChange value)) = true /\
  String.length (pin (handlePinChange value)) <= 6 /\
  handlePinChange (pin (handlePinChange value)) = handlePinChange value.
Proof.
  unfold handlePinChange. cbn [pin].
  set (cleaned := slice0 6 (removeNonDigits value)).
  assert (Hdigits : allChars isDigit cleaned = true)
    by apply allChars_slice0, allChars_removeNonDigits.
  assert (Hlen : String.length cleaned <= 6)
    by (unfold cleaned; rewrite length_slice0; apply Nat.le_min_l).
  repeat split; try assumption.
  rewrite (removeNonDigits_digits cleaned Hdigits), (slice0_all 6 cleaned Hlen).
  reflexivity.
Qed.

(** X2. The handler starts a check-in exactly when the typed value holds at
    least six digits; the call then gets the first six digits, which is
    also the PIN kept by the field, and never asks to skip the GPS check. *)
Theorem handlePinChange_starts (value : string) :
  (6 <= String.length (removeNonDigits value) ->
     started (handlePinChange value) =
       Some (slice0 6 (removeNonDigits value), false) /\
     pin (handlePinChange value) = slice0 6 (removeNonDigits value) /\
     String.length (pin (handlePinChange value)) = 6) /\
  (String.length (removeNonDigits value) < 6 ->
     started (handlePinChange value) = None).
Proof.
  unfold handlePinChange. cbn [pin started].
  rewrite length_slice0. split; intros H.
  - rewrite (Nat.min_l 6 _ H). repeat split.
  - rewrite (Nat.min_r 6 _ (Nat.lt_le_incl _ _ H)).
    destruct (Nat.eqb_spec (String.length (removeNonDigits value)) 6) as [E | _];
      [lia | reflexivity].
Qed.

(** A pasted value with separators. *)
Example handlePinChange_pasted :
  started (handlePinChange "12-34 56x7") = Some ("123456", false) /\
  started (handlePinChange "12345") = None.
Proof.
  split.
  - apply (proj1 (handlePinChange_starts "12-34 56x7")). vm_compute. lia.
  - apply (proj2 (handlePinChange_starts "12345")). vm_compute. lia.
Defined.

End PinField.

(** ** Browsers, tokens and PINs *)

Section BrowserFacts.

Local Open Scope string_scope.

(** X3. A browser that is allowed for a student is a mobile one and is
    allowed for every other role as well; the flag the check-in page keeps
    is the student's permission itself. *)
Theorem student_browser_allowed_for_all (nav : Navigator) (role : string) :
  (Browser.isAllowedBrowser nav "student" = true ->
     isMobileDevice nav = true /\ Browser.isAllowedBrowser nav role = true) /\
  Browser.pageIsMobile nav = Browser.isAllowedBrowser nav "student".
Proof.
  unfold Browser.pageIsMobile, Browser.isAllowedBrowser.
  change ("student" =? "student") with true. cbv iota.
  generalize (isMobileDevice nav) as mobile.
  generalize (includes (toLowerCase (userAgent nav)) "chrome") as chrome.
  generalize (includes (toLowerCase (userAgent nav)) "edg") as edg.
  generalize (includes (toLowerCase (userAgent nav)) "safari") as safari.
  generalize (role =? "student") as student.
  intros [] [] [] [] []; cbn;
    (split; [intros H; try discriminate H; split; reflexivity | reflexivity]).
Qed.

Example chrome_on_android_allowed :
  isMobileDevice Cases.chromeAndroid = true /\
  Browser.isAllowedBrowser Cases.chromeAndroid "teacher" = true.
Proof.
  apply (proj1 (student_browser_allowed_for_all Cases.chromeAndroid "teacher")).
  vm_compute. reflexivity.
Defined.

(** X4. A browser whose identity string names both Chrome and Edge is
    allowed for no role, and neither is a desktop browser that does not
    name Chrome. *)
Theorem edge_and_desktop_safari_refused (nav : Navigator) (role : string) :
  let userAgent := toLowerCase (userAgent nav) in
  (includes userAgent "chrome" = true -> includes userAgent "edg" = true ->
     Browser.isAllowedBrowser nav role = false) /\
  (includes userAgent "chrome" = false -> isMobileDevice nav = false ->
     Browser.isAllowedBrowser nav role = false).
Proof.
  cbv zeta. unfold Browser.isAllowedBrowser.
  generalize (isMobileDevice nav) as mobile.
  generalize (includes (toLowerCase (userAgent nav)) "chrome") as chrome.
  generalize (includes (toLowerCase (userAgent nav)) "edg") as edg.
  generalize (includes (toLowerCase (userAgent nav)) "safari") as safari.
  generalize (role =? "student") as student.
  intros [] [] [] [] []; cbn; split; intros H1 H2; try discriminate; reflexivity.
Qed.

Example edge_refused : Browser.isAllowedBrowser Cases.edgeDesktop "admin" = false.
Proof.
  apply (proj1 (edge_and_desktop_safari_refused Cases.edgeDesktop "admin"));
    vm_compute; reflexivity.
Defined.

Lemma hexByte_shape (b : byte) :
  exists hi lo,
    Browser.padStart 2 "0" (Browser.toString16 b) = String hi (String lo EmptyString) /\
    isLowerHex hi = true /\ isLowerHex lo = true /\
    unhexPair hi lo = Some b.
Proof.
  destruct b; (do 2 eexists; split; [vm_compute; reflexivity | repeat split]).
Qed.

Lemma hex_length_digits (bytes : list byte) :
  String.length (Browser.hex bytes) = 2 * List.length bytes /\
  allChars isLowerHex (Browser.hex bytes) = true.
Proof.
  induction bytes as [| b bytes [IHlen IHhex]]; [split; reflexivity |].
  destruct (hexByte_shape b) as (hi & lo & Hpair & Hhi & Hlo & _).
  cbn [Browser.hex List.length]. rewrite Hpair. cbn [append String.length allChars].
  rewrite IHlen, IHhex, Hhi, Hlo. split; [lia | reflexivity].
Qed.

Lemma unhex_hex (bytes : list byte) : unhex (Browser.hex bytes) = Some bytes.
Proof.
  induction bytes as [| b bytes IH]; [reflexivity |].
  destruct (hexByte_shape b) as (hi & lo & Hpair & _ & _ & Hval).
  cbn [Browser.hex]. rewrite Hpair. cbn [append unhex]. rewrite Hval, IH.
  reflexivity.
Qed.

(** X5. The hexadecimal text of a byte array has two characters per byte,
    all of them lower-case hexadecimal digits; a token is 64 such
    characters. *)
Theorem hex_shape (bytes : list byte) (random : nat -> byte) :
  String.length (Browser.hex bytes) = 2 * List.length bytes /\
  allChars isLowerHex (Browser.hex bytes) = true /\
  String.length (Browser.generateToken random) = 64 /\
  allChars isLowerHex (Browser.generateToken random) = true.
Proof.
  split; [apply hex_length_digits |]. split; [apply hex_length_digits |].
  unfold Browser.generateToken.
  destruct (hex_length_digits (map random (seq 0 32))) as [Hlen Hhex].
  rewrite Hlen, length_map, length_seq. split; [reflexivity | exact Hhex].
Qed.

(** X6. The hexadecimal text can be read back: decoding what [hex]
    produced returns the bytes, so different byte arrays never share a
    text. *)
Theorem hex_round_trip (bytes bytes' : list byte) :
  unhex (Browser.hex bytes) = Some bytes /\
  (bytes <> bytes' -> Browser.hex bytes <> Browser.hex bytes').
Proof.
  split; [apply unhex_hex |].
  intros Hne Heq. apply Hne.
  pose proof (unhex_hex bytes) as H. rewrite Heq, unhex_hex in H.
  congruence.
Qed.

Example hex_distinct : Browser.hex [x0f; x42] <> Browser.hex [xf0; x42].
Proof.
  apply (proj2 (hex_round_trip [x0f; x42] [xf0; x42])). discriminate.
Defined.

Lemma decimalDigit_isDigit (d : N) : (d < 10)%N -> isDigit (Browser.decimalDigit d) = true.
Proof.
  intros H.
  assert (Hcases : (d = 0 \/ d = 1 \/ d = 2 \/ d = 3 \/ d = 4 \/
                    d = 5 \/ d = 6 \/ d = 7 \/ d = 8 \/ d = 9)%N) by lia.
  repeat (destruct Hcases as [-> | Hcases]; [reflexivity |]).
  subst d. reflexivity.
Qed.

Lemma decimalDigit_value (d : N) : (d < 10)%N -> (N_of_ascii (Browser.decimalDigit d) - 48 = d)%N.
Proof.
  intros H.
  assert (Hcases : (d = 0 \/ d = 1 \/ d = 2 \/ d = 3 \/ d = 4 \/
                    d = 5 \/ d = 6 \/ d = 7 \/ d = 8 \/ d = 9)%N) by lia.
  repeat (destruct Hcases as [-> | Hcases]; [reflexivity |]).
  subst d. reflexivity.
Qed.

Lemma decimal_from_digits (fuel : nat) (n : N) :
  allChars isDigit (Browser.decimal_from fuel n) = true.
Proof.
  revert n. induction fuel as [| fuel IH]; intros n; cbn [Browser.decimal_from]; [reflexivity |].
  destruct (N.ltb_spec n 10) as [Hlt | Hge].
  - cbn. rewrite (decimalDigit_isDigit n Hlt). reflexivity.
  - rewrite allChars_append, IH. cbn.
    rewrite decimalDigit_isDigit; [reflexivity | apply N.mod_lt; lia].
Qed.

Lemma decimal_from_length (fuel k : nat) (n : N) :
  (n < 10 ^ N.of_nat (S k))%N -> String.length (Browser.decimal_from fuel n) <= S k.
Proof.
  revert k n. induction fuel as [| fuel IH]; intros k n Hn; cbn [Browser.decimal_from]; [cbn; lia |].
  destruct (N.ltb_spec n 10) as [Hlt | Hge]; [cbn; lia |].
  rewrite length_append. cbn [String.length].
  destruct k as [| k].
  - change (10 ^ N.of_nat 1)%N with 10%N in Hn. lia.
  - assert (Hdiv : (n / 10 < 10 ^ N.of_nat (S k))%N).
    { apply N.Div0.div_lt_upper_bound.
      rewrite (Nat2N.inj_succ (S k)), N.pow_succ_r' in Hn. exact Hn. }
    specialize (IH k (n / 10)%N Hdiv). lia.
Qed.

Lemma decimalValue_from_append (acc : N) (a b : string) :
  decimalValue_from acc (a ++ b) = decimalValue_from (decimalValue_from acc a) b.
Proof.
  revert acc. induction a as [| c a IH]; intros acc; cbn; [reflexivity | apply IH].
Qed.

Lemma decimalValue_from_zeros (k : nat) (s : string) :
  decimalValue_from 0 (Browser.repeat_char "0" k ++ s) = decimalValue_from 0 s.
Proof.
  induction k as [| k IH]; [reflexivity | exact IH].
Qed.

Lemma decimal_from_value (fuel : nat) (n : N) :
  (n < 10 ^ N.of_nat fuel)%N -> decimalValue (Browser.decimal_from fuel n) = n.
Proof.
  unfold decimalValue.
  revert n. induction fuel as [| fuel IH]; intros n Hn.
  - change (10 ^ N.of_nat 0)%N with 1%N in Hn. cbn. lia.
  - cbn [Browser.decimal_from].
    destruct (N.ltb_spec n 10) as [Hlt | Hge].
    + cbn [decimalValue_from]. rewrite decimalDigit_value by exact Hlt. lia.
    + rewrite decimalValue_from_append. cbn [decimalValue_from].
      rewrite IH.
      * rewrite decimalDigit_value by (apply N.mod_lt; lia).
        pose proof (N.div_mod n 10). lia.
      * apply N.Div0.div_lt_upper_bound.
        rewrite Nat2N.inj_succ, N.pow_succ_r' in Hn. exact Hn.
Qed.

Lemma toString10_value (n : N) : decimalValue (Browser.toString10 n) = n.
Proof.
  unfold Browser.toString10. apply decimal_from_value.
  rewrite Nat2N.inj_succ, N2Nat.id.
  destruct (N.eq_dec n 0) as [-> | Hpos]; [reflexivity |].
  apply N.lt_le_trans with (2 ^ N.succ (N.log2 n))%N.
  - apply N.log2_spec. lia.
  - apply N.pow_le_mono_l. lia.
Qed.

(** X7. Whatever the random bytes, a generated PIN is six decimal digits
    that denote the 24-bit random number modulo one million; typed into
    the PIN field it is kept as it is and starts a check-in. *)
Theorem generatePIN_six_digits (random : nat -> byte) :
  String.length (Browser.generatePIN random) = 6 /\
  allChars isDigit (Browser.generatePIN random) = true /\
  decimalValue (Browser.generatePIN random) = (pinNumber random mod 1000000)%N /\
  handlePinChange (Browser.generatePIN random) =
    {| pin := Browser.generatePIN random;
       started := Some (Browser.generatePIN random, false) |}.
Proof.
  unfold Browser.generatePIN. fold (pinNumber random).
  set (num := (pinNumber random mod 1000000)%N).
  assert (Hnum : (num < 10 ^ N.of_nat 6)%N) by (apply N.mod_lt; discriminate).
  pose proof (decimal_from_length (S (N.to_nat (N.log2 num))) 5 num Hnum) as Hlen.
  fold (Browser.toString10 num) in Hlen.
  pose proof (decimal_from_digits (S (N.to_nat (N.log2 num))) num) as Hdigits.
  fold (Browser.toString10 num) in Hdigits.
  set (text := Browser.toString10 num) in *.
  assert (Hsix : String.length (Browser.padStart 6 "0" text) = 6).
  { unfold Browser.padStart. rewrite length_append, length_repeat_char. lia. }
  assert (Hall : allChars isDigit (Browser.padStart 6 "0" text) = true).
  { unfold Browser.padStart.
    rewrite allChars_append, Hdigits, allChars_repeat_char; reflexivity. }
  split; [exact Hsix |]. split; [exact Hall |]. split.
  - unfold Browser.padStart, decimalValue. rewrite decimalValue_from_zeros.
    apply toString10_value.
  - unfold handlePinChange.
    rewrite (removeNonDigits_digits _ Hall), slice0_all by (rewrite Hsix; lia).
    rewrite Hsix. reflexivity.
Qed.

End BrowserFacts.

Section MoreBrowserFacts.

Local Open Scope string_scope.

(** X9. The diagnosis carries no recommendation exactly when the page is
    served securely, the browser has the geolocation service and the
    permission is granted; otherwise it carries one recommendation for
    each of the three that is missing. *)
Theorem diagnoseGPSSystem_recommendations (nav : Navigator) (page : Page) :
  let d := diagnoseGPSSystem nav page in
  (recommendations d = [] <->
     isHTTPS d = true /\ isSupported d = true /\ hasPermission d = true) /\
  List.length (recommendations d) =
    (if isHTTPS d then 0 else 1) + (if isSupported d then 0 else 1) +
    (if hasPermission d then 0 else 1) /\
  (hasPermission d = true <-> permissions page = Some (Some granted)).
Proof.
  unfold diagnoseGPSSystem.
  destruct ((protocol page =? "https:") || (hostname page =? "localhost"));
    destruct (geolocation nav);
    destruct (permissions page) as [[[ | | ] | ] | ]; cbn;
    repeat split; intros; try discriminate; try reflexivity;
    repeat match goal with H : _ /\ _ |- _ => destruct H end;
    try discriminate.
Qed.

End MoreBrowserFacts.

(** ** Comparisons, continued *)

Section FloatFacts2.

Local Open Scope float_scope.

Lemma eqb_zero_below_tenth (x : float) : (x =? 0) = true -> (x <? 0.1) = true.
Proof.
  rewrite FloatAxioms.eqb_spec, FloatAxioms.ltb_spec. intros H.
  destruct (Prim2SF x) as [s | s | | s m e].
  - destruct s; vm_compute; reflexivity.
  - destruct s; vm_compute in H; discriminate H.
  - vm_compute in H; discriminate H.
  - destruct s; vm_compute in H; discriminate H.
Qed.

Lemma eqb_leb (x y : float) : (x =? y) = true -> (x <=? y) = true.
Proof.
  rewrite FloatAxioms.eqb_spec, FloatAxioms.leb_spec.
  unfold SFeqb, SFleb.
  destruct (SFcompare (Prim2SF x) (Prim2SF y)) as [[ | | ] | ]; congruence.
Qed.

End FloatFacts2.

(** ** The classifier, case by case *)

Section ClassifierCases.

Local Open Scope string_scope.
Local Open Scope list_scope.

Variable pf : Platform.

Ltac step :=
  cbv beta iota zeta delta
    [collectIndicators requireMultipleIndicators detectSuspiciousGPS
     with_locals lift bind ret throw try_catch gets modify platform when
     set_isSuspicious reasons_push reasons_assign
     getCurrentLocation await await_all settle_all entry
     var_isSuspicious var_reasons machine issued trace fst snd].

Lemma trace_two (t : list Event) (a b : Event) : (t ++ [a]) ++ [b] = t ++ [a; b].
Proof.
  rewrite <- app_assoc. reflexivity.
Qed.

Lemma trace_five (t : list Event) (a b c d e : Event) :
  ((((t ++ [a]) ++ [b]) ++ [c]) ++ [d]) ++ [e] = t ++ [a; b; c; d; e].
Proof.
  repeat rewrite <- app_assoc. reflexivity.
Qed.

(** The run of a classification whose first acquisition fails. *)
Lemma detectSuspiciousGPS_first_fails
    (level : option string) (teacherRadius pinValiditySeconds : option number)
    (userRole : option string) (m : Machine) (e : Exn) :
  isExempt userRole = false ->
  settle pf (issued m) = inl e ->
  detectSuspiciousGPS level teacherRadius pinValiditySeconds userRole pf m =
    (Normal {| isSuspicious := isEmulator (toLowerCase (userAgent (navigator pf)));
               reasons := (if isEmulator (toLowerCase (userAgent (navigator pf)))
                           then ["Emulator/Simulator aniqlandi"] else []) ++
                          ["GPS tekshiruvida xatolik"] |},
     after_request m).
Proof.
  destruct m as [n t]. cbn [issued]. intros Hrole H0.
  unfold detectSuspiciousGPS, with_locals, after_request. rewrite Hrole.
  step.
  destruct (isEmulator (toLowerCase (userAgent (navigator pf))));
    step; rewrite H0; step; rewrite trace_two; reflexivity.
Qed.

(** The run of a classification whose first acquisition succeeds and whose
    batch of two fails. *)
Lemma detectSuspiciousGPS_batch_fails
    (level : option string) (teacherRadius pinValiditySeconds : option number)
    (userRole : option string) (m : Machine) (l0 : LocationData) (e : Exn) :
  isExempt userRole = false ->
  settle pf (issued m) = inr l0 ->
  settle_all pf [S (issued m); S (S (issued m))] = inl e ->
  detectSuspiciousGPS level teacherRadius pinValiditySeconds userRole pf m =
    (Normal {| isSuspicious :=
                 negb (Nat.eqb (List.length (earlyIndicators (userAgent (navigator pf)) l0)) 0);
               reasons := earlyIndicators (userAgent (navigator pf)) l0 ++
                          ["GPS tekshiruvida xatolik"] |},
     after_classification m).
Proof.
  destruct m as [n t]. cbn [issued]. intros Hrole H0 H12.
  unfold detectSuspiciousGPS, with_locals, after_classification, classification_trace,
    earlyIndicators.
  rewrite Hrole. cbn [settle_all] in H12. step.
  destruct (isEmulator (toLowerCase (userAgent (navigator pf))));
    step; rewrite H0; step;
    destruct (PrimFloat.eqb (accuracy l0) 0);
    destruct (PrimFloat.ltb (accuracy l0) 0.1);
    step;
    (destruct (settle pf (S n)) as [e1 | l1];
     [| destruct (settle pf (S (S n))) as [e2 | l2]; [| discriminate H12]]);
    step; rewrite trace_five; reflexivity.
Qed.

(** The batch of two either fails or yields two readings. *)
Lemma settle_all_two (a b : nat) :
  (exists e, settle_all pf [a; b] = inl e) \/
  (exists l1 l2, settle pf a = inr l1 /\ settle pf b = inr l2).
Proof.
  cbn [settle_all].
  destruct (settle pf a) as [e1 | l1]; [left; eexists; reflexivity |].
  destruct (settle pf b) as [e2 | l2]; [left; eexists; reflexivity |].
  right. do 2 eexists. split; reflexivity.
Qed.


(** Every run of a classification that is not exempt is one of three. *)
Lemma detectSuspiciousGPS_cases
    (level : option string) (teacherRadius pinValiditySeconds : option number)
    (userRole : option string) (m : Machine) :
  isExempt userRole = false ->
  let ua := userAgent (navigator pf) in
  let run := detectSuspiciousGPS level teacherRadius pinValiditySeconds userRole pf m in
  (exists e,
      settle pf (issued m) = inl e /\
      run = (Normal {| isSuspicious := isEmulator (toLowerCase ua);
                       reasons := (if isEmulator (toLowerCase ua)
                                   then ["Emulator/Simulator aniqlandi"] else []) ++
                                  ["GPS tekshiruvida xatolik"] |},
             after_request m)) \/
  (exists l0 e,
      settle pf (issued m) = inr l0 /\
      settle_all pf [S (issued m); S (S (issued m))] = inl e /\
      run = (Normal {| isSuspicious :=
                         negb (Nat.eqb (List.length (earlyIndicators ua l0)) 0);
                       reasons := earlyIndicators ua l0 ++ ["GPS tekshiruvida xatolik"] |},
             after_classification m)) \/
  (exists l0 l1 l2,
      acquisitions_succeed pf m l0 l1 l2 /\
      run = (Normal (if Nat.ltb (List.length (indicators ua l0 l1 l2)) 2
                     then {| isSuspicious := false;
                             reasons := indicators ua l0 l1 l2 ++
                                        ["GPS tekshiruvida xatolik"] |}
                     else {| isSuspicious := true;
                             reasons := indicators ua l0 l1 l2 |}),
             after_classification m)).
Proof.
  intros Hrole ua run. subst ua run.
  destruct (settle pf (issued m)) as [e | l0] eqn:H0.
  - left. exists e. split; [reflexivity |].
    eapply detectSuspiciousGPS_first_fails; eassumption.
  - right.
    destruct (settle_all_two (S (issued m)) (S (S (issued m))))
      as [(e & H12) | (l1 & l2 & H1 & H2)].
    + left. exists l0, e. split; [reflexivity |]. split; [exact H12 |].
      eapply detectSuspiciousGPS_batch_fails; eassumption.
    + right. exists l0, l1, l2.
      assert (Hacq : acquisitions_succeed pf m l0 l1 l2) by (repeat split; assumption).
      split; [exact Hacq |].
      apply (detectSuspiciousGPS_run pf level teacherRadius pinValiditySeconds
               userRole m l0 l1 l2 Hrole Hacq).
Qed.

Lemma earlyIndicators_known (ua : string) (l0 : LocationData) (r : string) :
  In r (earlyIndicators ua l0) -> In r indicatorReasons.
Proof.
  unfold earlyIndicators, indicatorReasons.
  destruct (isEmulator (toLowerCase ua));
    destruct (PrimFloat.eqb (accuracy l0) 0);
    destruct (PrimFloat.ltb (accuracy l0) 0.1);
    cbn; intuition auto.
Qed.

Lemma indicators_known (ua : string) (l0 l1 l2 : LocationData) (r : string) :
  In r (indicators ua l0 l1 l2) -> In r indicatorReasons.
Proof.
  unfold indicators, indicatorReasons.
  destruct (isEmulator (toLowerCase ua));
    destruct (PrimFloat.eqb (accuracy l0) 0);
    destruct (PrimFloat.ltb (accuracy l0) 0.1);
    destruct (coordinatesIdentical l1 l2);
    cbn; intuition auto.
Qed.

(** X10. A classification that is not exempt issues one request when its
    first acquisition fails and three otherwise, also when the second or
    the third fails; it never issues two, or more than three. *)
Theorem classification_request_count
    (level : option string) (teacherRadius pinValiditySeconds : option number)
    (userRole : option string) (m : Machine) :
  isExempt userRole = false ->
  snd (detectSuspiciousGPS level teacherRadius pinValiditySeconds userRole pf m) =
    match settle pf (issued m) with
    | inl _ => after_request m
    | inr _ => after_classification m
    end.
Proof.
  intros Hrole.
  destruct (detectSuspiciousGPS_cases level teacherRadius pinValiditySeconds
              userRole m Hrole)
    as [(e & H0 & Hrun) | [(l0 & e & H0 & _ & Hrun) | (l0 & l1 & l2 & (H0 & _) & Hrun)]];
    rewrite Hrun, H0; reflexivity.
Qed.

(** X11. A verdict is suspicious only on the strength of an indicator: a
    suspicious verdict always lists one of the four indicator reasons, so a
    failed acquisition alone never flags a student. *)
Theorem suspicious_needs_indicator
    (level : option string) (teacherRadius pinValiditySeconds : option number)
    (userRole : option string) (m : Machine) (verdict : Verdict) :
  isExempt userRole = false ->
  verdict_of (detectSuspiciousGPS level teacherRadius pinValiditySeconds
                userRole pf m) = Normal verdict ->
  isSuspicious verdict = true ->
  exists r, In r (reasons verdict) /\ In r indicatorReasons.
Proof.
  intros Hrole Hrun Hsus. unfold verdict_of in Hrun.
  destruct (detectSuspiciousGPS_cases level teacherRadius pinValiditySeconds
              userRole m Hrole)
    as [(e & _ & Heq) | [(l0 & e & _ & _ & Heq) | (l0 & l1 & l2 & _ & Heq)]];
    rewrite Heq in Hrun; cbn [fst] in Hrun; injection Hrun as <-.
  - cbn [isSuspicious] in Hsus. cbn [reasons]. rewrite Hsus.
    exists "Emulator/Simulator aniqlandi". split; cbn; auto.
  - cbn [isSuspicious reasons] in *.
    destruct (earlyIndicators (userAgent (navigator pf)) l0) as [| r rest] eqn:Hearly;
      [discriminate Hsus |].
    exists r. split; [cbn; auto |].
    apply (earlyIndicators_known (userAgent (navigator pf)) l0).
    rewrite Hearly. cbn. auto.
  - destruct (Nat.ltb (List.length (indicators (userAgent (navigator pf)) l0 l1 l2)) 2)
      eqn:Hlen; cbn [isSuspicious reasons] in *; [discriminate Hsus |].
    destruct (indicators (userAgent (navigator pf)) l0 l1 l2) as [| r rest] eqn:Hinds;
      [discriminate Hlen |].
    exists r. split; [cbn; auto |].
    apply (indicators_known (userAgent (navigator pf)) l0 l1 l2).
    rewrite Hinds. cbn. auto.
Qed.

Lemma nonexempt_reasons_shape
    (level : option string) (teacherRadius pinValiditySeconds : option number)
    (userRole : option string) (m : Machine) (verdict : Verdict) :
  isExempt userRole = false ->
  verdict_of (detectSuspiciousGPS level teacherRadius pinValiditySeconds
                userRole pf m) = Normal verdict ->
  reasons verdict <> [] /\
  (isSuspicious verdict = false ->
     exists before, reasons verdict = before ++ ["GPS tekshiruvida xatolik"]).
Proof.
  intros Hrole Hrun. unfold verdict_of in Hrun.
  destruct (detectSuspiciousGPS_cases level teacherRadius pinValiditySeconds
              userRole m Hrole)
    as [(e & _ & Heq) | [(l0 & e & _ & _ & Heq) | (l0 & l1 & l2 & _ & Heq)]];
    rewrite Heq in Hrun; cbn [fst] in Hrun; injection Hrun as <-.
  - cbn [isSuspicious reasons]. split; [| intros _; eexists; reflexivity].
    intros Hnil. apply app_eq_nil in Hnil as [_ Hnil]. discriminate Hnil.
  - cbn [isSuspicious reasons]. split; [| intros _; eexists; reflexivity].
    intros Hnil. apply app_eq_nil in Hnil as [_ Hnil]. discriminate Hnil.
  - destruct (Nat.ltb (List.length (indicators (userAgent (navigator pf)) l0 l1 l2)) 2)
      eqn:Hlen; cbn [isSuspicious reasons].
    + split; [| intros _; eexists; reflexivity].
      intros Hnil. apply app_eq_nil in Hnil as [_ Hnil]. discriminate Hnil.
    + split; [| intros Hno; discriminate Hno].
      intros Hnil. rewrite Hnil in Hlen. discriminate Hlen.
Qed.

(** X12. The verdict of a classification that is not exempt never has an
    empty list of reasons, and whenever it is not suspicious the list ends
    with the reason of the [catch] clause. *)
Theorem verdict_reasons_never_empty
    (level : option string) (teacherRadius pinValiditySeconds : option number)
    (userRole : option string) (m : Machine) (verdict : Verdict) :
  isExempt userRole = false ->
  verdict_of (detectSuspiciousGPS level teacherRadius pinValiditySeconds
                userRole pf m) = Normal verdict ->
  reasons verdict <> [] /\
  (isSuspicious verdict = false ->
     exists before, reasons verdict = before ++ ["GPS tekshiruvida xatolik"]).
Proof.
  apply nonexempt_reasons_shape.
Qed.

(** X13. A first reading whose accuracy is exactly 0 is flagged whatever
    else the device reports: being below 0.1 as well, it contributes two
    reasons and passes the gate by itself. *)
Theorem zero_accuracy_flags
    (level : option string) (teacherRadius pinValiditySeconds : option number)
    (userRole : option string) (m : Machine) (l0 l1 l2 : LocationData) :
  isExempt userRole = false ->
  acquisitions_succeed pf m l0 l1 l2 ->
  PrimFloat.eqb (accuracy l0) 0 = true ->
  exists verdict,
    verdict_of (detectSuspiciousGPS level teacherRadius pinValiditySeconds
                  userRole pf m) = Normal verdict /\
    isSuspicious verdict = true /\
    In "Mumkin bo'lmagan GPS aniqligi (0 metr)" (reasons verdict) /\
    In "Mumkin bo'lmagan yuqori aniqlik" (reasons verdict).
Proof.
  intros Hrole Hacq Hzero.
  rewrite (detectSuspiciousGPS_run pf level teacherRadius pinValiditySeconds
             userRole m l0 l1 l2 Hrole Hacq).
  unfold verdict_of, fst, indicators.
  rewrite Hzero, (eqb_zero_below_tenth _ Hzero).
  destruct (isEmulator (toLowerCase (userAgent (navigator pf))));
    destruct (coordinatesIdentical l1 l2); cbn;
    eexists; (split; [reflexivity |]); cbn; intuition auto.
Qed.

End ClassifierCases.

(** ** The flows of a check-in *)

Section OrchestratorFlows.

Local Open Scope string_scope.

Lemma await_request (pf : Platform) (m : Machine) :
  (p <- getCurrentLocation ;; await p) pf m =
    (match settle pf (issued m) with
     | inr location => Normal location
     | inl e => Throw e
     end, after_request m).
Proof.
  destruct m as [n t]. unfold after_request.
  cbv beta iota zeta delta
    [bind getCurrentLocation await gets modify platform ret throw issued trace].
  rewrite <- app_assoc. cbn [app].
  destruct (settle pf n); reflexivity.
Qed.

(** [locate] on the normal GPS flow: the verdict, then one more request. *)
Lemma locate_gps_flow
    (app : App) (lesson : Lesson) (pf : Platform) (m m1 : Machine) (verdict : Verdict) :
  detectSuspiciousGPS
    (Some (or_default_string (fake_detection_level lesson) "medium"))
    (radius_meters lesson) (pin_validity_seconds lesson)
    (option_map role (user app)) pf m = (Normal verdict, m1) ->
  locate lesson app false pf m =
    (Normal match settle pf (issued m1) with
            | inr location => inr (location, verdict)
            | inl e => inl (locationErrorMessage e)
            end,
     after_request m1).
Proof.
  intros Hdetect. unfold locate.
  unfold bind at 1. rewrite Hdetect.
  unfold try_catch. unfold bind at 1. rewrite await_request.
  destruct (settle pf (issued m1)); reflexivity.
Qed.

(** A check-in on the normal GPS flow whose own acquisition succeeds: the
    row it writes and the machine it leaves. *)
Lemma handleCheckin_gps_flow
    (app : App) (pinCode : string) (pf : Platform) (m m1 : Machine)
    (student : User) (lesson : Lesson) (fp : string)
    (verdict : Verdict) (location : LocationData) :
  user app = Some student ->
  String.length pinCode = 6 ->
  isMobileDevice (navigator pf) = true ->
  findActiveLesson app pinCode = Some lesson ->
  Checkin.getFingerprint app = Some fp ->
  detectSuspiciousGPS
    (Some (or_default_string (fake_detection_level lesson) "medium"))
    (radius_meters lesson) (pin_validity_seconds lesson)
    (Some (role student)) pf m = (Normal verdict, m1) ->
  settle pf (issued m1) = inr location ->
  exists out row result,
    handleCheckin app pinCode false pf m = (Normal out, after_request m1) /\
    written out = Some row /\
    shown out = Some result /\
    row_latitude row = latitude location /\
    row_longitude row = longitude location /\
    distance_meters row =
      calculateDistance (engine pf) (latitude location) (longitude location)
        (lesson_latitude lesson) (lesson_longitude lesson) /\
    is_fake_gps row = isSuspicious verdict /\
    (status row, suspicious_reason row) =
      determineStatus (engine pf) false verdict
        (PrimFloat.leb (distance_meters row) (or_default (radius_meters lesson) 120%float))
        (distance_meters row) (or_default (radius_meters lesson) 120%float) /\
    success result = match status row with present => true | suspicious => false end.
Proof.
  intros Huser Hpin Hmobile Hlesson Hfp Hdetect Hsettle.
  unfold handleCheckin. rewrite Huser, Hpin. cbn [Nat.eqb negb].
  unfold try_catch at 1. unfold bind at 1. unfold platform at 1.
  rewrite Hmobile, Hlesson. cbn [negb]. unfold bind at 1.
  rewrite (locate_gps_flow app lesson pf m m1 verdict)
    by (rewrite Huser; exact Hdetect).
  rewrite Hsettle, Hfp. cbn [negb].
  destruct (determineStatus (engine pf) false verdict _ _ _) as [st reason] eqn:Hst.
  unfold ret. do 3 eexists.
  split; [reflexivity |]. split; [reflexivity |]. split; [reflexivity |].
  cbn [row_latitude row_longitude distance_meters is_fake_gps status suspicious_reason].
  repeat split; try reflexivity.
  - symmetry. exact Hst.
  - destruct st; reflexivity.
Qed.

(** A check-in on the normal GPS flow whose own acquisition fails. *)
Lemma handleCheckin_location_fails
    (app : App) (pinCode : string) (pf : Platform) (m m1 : Machine)
    (student : User) (lesson : Lesson) (verdict : Verdict) (e : Exn) :
  user app = Some student ->
  String.length pinCode = 6 ->
  isMobileDevice (navigator pf) = true ->
  findActiveLesson app pinCode = Some lesson ->
  detectSuspiciousGPS
    (Some (or_default_string (fake_detection_level lesson) "medium"))
    (radius_meters lesson) (pin_validity_seconds lesson)
    (Some (role student)) pf m = (Normal verdict, m1) ->
  settle pf (issued m1) = inl e ->
  handleCheckin app pinCode false pf m =
    (Normal (failure (locationErrorMessage e)), after_request m1).
Proof.
  intros Huser Hpin Hmobile Hlesson Hdetect Hsettle.
  unfold handleCheckin. rewrite Huser, Hpin. cbn [Nat.eqb negb].
  unfold try_catch at 1. unfold bind at 1. unfold platform at 1.
  rewrite Hmobile, Hlesson. cbn [negb]. unfold bind at 1.
  rewrite (locate_gps_flow app lesson pf m m1 verdict)
    by (rewrite Huser; exact Hdetect).
  rewrite Hsettle. reflexivity.
Qed.

Lemma detectSuspiciousGPS_exempt
    (pf : Platform) (level : option string)
    (teacherRadius pinValiditySeconds : option number)
    (userRole : option string) (m : Machine) :
  isExempt userRole = true ->
  detectSuspiciousGPS level teacherRadius pinValiditySeconds userRole pf m =
    (Normal {| isSuspicious := false; reasons := [] |}, m).
Proof.
  intros Hrole. unfold detectSuspiciousGPS, with_locals. rewrite Hrole.
  destruct m; reflexivity.
Qed.

Lemma detectSuspiciousGPS_thresholds_unused
    (pf : Platform) (level level' : option string)
    (teacherRadius pinValiditySeconds teacherRadius' pinValiditySeconds' : option number)
    (userRole : option string) (m : Machine) :
  detectSuspiciousGPS level teacherRadius pinValiditySeconds userRole pf m =
  detectSuspiciousGPS level' teacherRadius' pinValiditySeconds' userRole pf m.
Proof.
  unfold detectSuspiciousGPS. destruct (isExempt userRole); reflexivity.
Qed.


(** X14. A PIN that resolves to no active lesson never leads to a location
    request or to an attendance row, with or without [skipGPS]; a signed-in
    student on a mobile browser is told that the PIN is wrong or expired. *)
Theorem unresolved_pin_is_rejected
    (app : App) (pinCode : string) (skipGPS : bool) (pf : Platform) (m : Machine) :
  findActiveLesson app pinCode = None ->
  exists out,
    handleCheckin app pinCode skipGPS pf m = (Normal out, m) /\
    written out = None /\
    (user app <> None -> String.length pinCode = 6 ->
     isMobileDevice (navigator pf) = true ->
     shown out =
       Some {| success := false;
               result_message := "PIN kod noto'g'ri yoki muddati o'tgan";
               result_status := None |}).
Proof.
  intros Hlesson. unfold handleCheckin.
  destruct (user app) as [student |];
    [| eexists; repeat split; intros Huser; congruence].
  destruct (Nat.eqb_spec (String.length pinCode) 6) as [Hpin | Hpin]; cbn [negb];
    [| eexists; repeat split; intros _ Hlen; congruence].
  unfold try_catch, bind, platform. rewrite Hlesson.
  destruct (isMobileDevice (navigator pf)); cbn [negb];
    eexists; repeat split; intros _ _ Hmobile; congruence.
Qed.

(** X15. When the orchestrator's own acquisition is refused, nothing is
    written and the student sees the message of the error class: a denied
    permission with the browser-settings guidance, an unavailable position
    with the connectivity hint, and two timeouts in a row with the bare
    timeout message. *)
Theorem location_failure_hints
    (app : App) (pinCode : string) (pf : Platform) (m m1 : Machine)
    (student : User) (lesson : Lesson) (verdict : Verdict)
    (gps : nat -> PositionOptions -> PositionResult) :
  user app = Some student ->
  String.length pinCode = 6 ->
  isMobileDevice (navigator pf) = true ->
  findActiveLesson app pinCode = Some lesson ->
  detectSuspiciousGPS
    (Some (or_default_string (fake_detection_level lesson) "medium"))
    (radius_meters lesson) (pin_validity_seconds lesson)
    (Some (role student)) pf m = (Normal verdict, m1) ->
  geolocation (navigator pf) = Some gps ->
  (forall text,
      gps (issued m1) highAccuracy =
        PositionError {| code := PERMISSION_DENIED; message := text |} ->
      handleCheckin app pinCode false pf m =
        (Normal (failure
           ("Joylashuv ruxsati berilmadi. Iltimos, brauzer sozlamalaridan GPS ruxsatini bering."
            ++ nl ++ nl ++ "Chrome/Safari sozlamalarida: " ++ nl ++
            "1. Uch burchak menyuga bosing" ++ nl ++
            "2. 'Joylashuv' ruxsatini 'Ruxsat berilgan' qiling" ++ nl ++
            "3. Sahifani qayta yuklang")),
         after_request m1)) /\
  (forall text,
      gps (issued m1) highAccuracy =
        PositionError {| code := POSITION_UNAVAILABLE; message := text |} ->
      handleCheckin app pinCode false pf m =
        (Normal (failure
           ("Joylashuvni aniqlab bo'lmadi. Internet aloqasini tekshiring."
            ++ nl ++ nl ++ "Iltimos, Wi-Fi yoki mobil internet aloqasini tekshiring")),
         after_request m1)) /\
  (forall text text',
      gps (issued m1) highAccuracy =
        PositionError {| code := TIMEOUT; message := text |} ->
      gps (issued m1) lowAccuracy =
        PositionError {| code := TIMEOUT; message := text' |} ->
      handleCheckin app pinCode false pf m =
        (Normal (failure "Joylashuvni aniqlash vaqti tugadi. Qayta urinib ko'ring."),
         after_request m1)).
Proof.
  intros Huser Hpin Hmobile Hlesson Hdetect Hgps.
  repeat split; intros.
  - rewrite (handleCheckin_location_fails app pinCode pf m m1 student lesson verdict
               (Error "Joylashuv ruxsati berilmadi. Iltimos, brauzer sozlamalaridan GPS ruxsatini bering."));
      try assumption; [reflexivity |].
    unfold settle. rewrite Hgps, H. reflexivity.
  - rewrite (handleCheckin_location_fails app pinCode pf m m1 student lesson verdict
               (Error "Joylashuvni aniqlab bo'lmadi. Internet aloqasini tekshiring."));
      try assumption; [reflexivity |].
    unfold settle. rewrite Hgps, H. reflexivity.
  - rewrite (handleCheckin_location_fails app pinCode pf m m1 student lesson verdict
               (Error "Joylashuvni aniqlash vaqti tugadi. Qayta urinib ko'ring."));
      try assumption; [reflexivity |].
    unfold settle. rewrite Hgps, H. cbn [code]. rewrite H0. reflexivity.
Qed.

(** X16. On the normal GPS flow of a student whose acquisitions all
    succeed, the check-in makes four requests: the classifier's three and
    then one of its own. The position written to the row, and measured
    against the geofence, is that fourth reading, which the classifier never
    saw. *)
Theorem geofence_reading_is_the_fourth
    (app : App) (pinCode : string) (pf : Platform) (m : Machine)
    (student : User) (lesson : Lesson) (fp : string)
    (l0 l1 l2 l3 : LocationData) :
  user app = Some student ->
  isExempt (Some (role student)) = false ->
  String.length pinCode = 6 ->
  isMobileDevice (navigator pf) = true ->
  findActiveLesson app pinCode = Some lesson ->
  Checkin.getFingerprint app = Some fp ->
  acquisitions_succeed pf m l0 l1 l2 ->
  settle pf (S (S (S (issued m)))) = inr l3 ->
  exists out row,
    handleCheckin app pinCode false pf m = (Normal out, after_request (after_classification m)) /\
    written out = Some row /\
    row_latitude row = latitude l3 /\
    row_longitude row = longitude l3 /\
    distance_meters row =
      calculateDistance (engine pf) (latitude l3) (longitude l3)
        (lesson_latitude lesson) (lesson_longitude lesson) /\
    is_fake_gps row =
      negb (Nat.ltb (List.length (indicators (userAgent (navigator pf)) l0 l1 l2)) 2).
Proof.
  intros Huser Hrole Hpin Hmobile Hlesson Hfp Hacq H3.
  pose proof (detectSuspiciousGPS_run pf
                (Some (or_default_string (fake_detection_level lesson) "medium"))
                (radius_meters lesson) (pin_validity_seconds lesson)
                (Some (role student)) m l0 l1 l2 Hrole Hacq) as Hdetect.
  cbv zeta in Hdetect.
  destruct (handleCheckin_gps_flow app pinCode pf m (after_classification m)
              student lesson fp _ l3 Huser Hpin Hmobile Hlesson Hfp Hdetect H3)
    as (out & row & result & Hrun & Hrow & _ & Hlat & Hlon & Hdist & Hfake & _).
  exists out, row. repeat split; try assumption.
  rewrite Hfake.
  destruct (Nat.ltb (List.length (indicators (userAgent (navigator pf)) l0 l1 l2)) 2);
    reflexivity.
Qed.

(** X17. The geofence is inclusive: a check-in that the classifier does not
    flag and whose distance equals the radius is recorded as present. *)
Theorem geofence_boundary_is_inside
    (app : App) (pinCode : string) (pf : Platform) (m m1 : Machine)
    (student : User) (lesson : Lesson) (fp : string)
    (verdict : Verdict) (location : LocationData) :
  user app = Some student ->
  String.length pinCode = 6 ->
  isMobileDevice (navigator pf) = true ->
  findActiveLesson app pinCode = Some lesson ->
  Checkin.getFingerprint app = Some fp ->
  detectSuspiciousGPS
    (Some (or_default_string (fake_detection_level lesson) "medium"))
    (radius_meters lesson) (pin_validity_seconds lesson)
    (Some (role student)) pf m = (Normal verdict, m1) ->
  settle pf (issued m1) = inr location ->
  isSuspicious verdict = false ->
  PrimFloat.eqb
    (calculateDistance (engine pf) (latitude location) (longitude location)
       (lesson_latitude lesson) (lesson_longitude lesson))
    (or_default (radius_meters lesson) 120%float) = true ->
  exists out row result,
    verdict_of (handleCheckin app pinCode false pf m) = Normal out /\
    written out = Some row /\ status row = present /\
    shown out = Some result /\ success result = true.
Proof.
  intros Huser Hpin Hmobile Hlesson Hfp Hdetect Hsettle Hclean Hedge.
  destruct (handleCheckin_gps_flow app pinCode pf m m1 student lesson fp verdict
              location Huser Hpin Hmobile Hlesson Hfp Hdetect Hsettle)
    as (out & row & result & Hrun & Hrow & Hshown & _ & _ & Hdist & _ & Hstatus & Hsuccess).
  exists out, row, result. unfold verdict_of. rewrite Hrun.
  rewrite Hdist in Hstatus. rewrite (eqb_leb _ _ Hedge) in Hstatus.
  unfold determineStatus in Hstatus. rewrite Hclean in Hstatus. cbn in Hstatus.
  injection Hstatus as Hst _. rewrite Hst in Hsuccess.
  repeat split; assumption.
Qed.

(** X18. For a signed-in teacher or admin the check-in makes a single
    request, its own; the row is never flagged as fake GPS and its status
    follows the geofence alone. *)
Theorem exempt_checkin_single_request
    (app : App) (pinCode : string) (pf : Platform) (m : Machine)
    (staff : User) (lesson : Lesson) (fp : string) (location : LocationData) :
  user app = Some staff ->
  isExempt (Some (role staff)) = true ->
  String.length pinCode = 6 ->
  isMobileDevice (navigator pf) = true ->
  findActiveLesson app pinCode = Some lesson ->
  Checkin.getFingerprint app = Some fp ->
  settle pf (issued m) = inr location ->
  exists out row,
    handleCheckin app pinCode false pf m = (Normal out, after_request m) /\
    written out = Some row /\
    is_fake_gps row = false /\
    status row =
      if PrimFloat.leb (distance_meters row) (or_default (radius_meters lesson) 120%float)
      then present else suspicious.
Proof.
  intros Huser Hrole Hpin Hmobile Hlesson Hfp Hsettle.
  pose proof (detectSuspiciousGPS_exempt pf
                (Some (or_default_string (fake_detection_level lesson) "medium"))
                (radius_meters lesson) (pin_validity_seconds lesson)
                (Some (role staff)) m Hrole) as Hdetect.
  destruct (handleCheckin_gps_flow app pinCode pf m m staff lesson fp _
              location Huser Hpin Hmobile Hlesson Hfp Hdetect Hsettle)
    as (out & row & result & Hrun & Hrow & _ & _ & _ & _ & Hfake & Hstatus & _).
  exists out, row. repeat split; try assumption.
  unfold determineStatus in Hstatus. cbn [isSuspicious negb andb] in Hstatus.
  destruct (PrimFloat.leb (distance_meters row) _); cbn in Hstatus;
    injection Hstatus as Hst _; exact Hst.
Qed.

(** X19. Two lessons that differ only in their detection level and in the
    validity of their PIN lead to the same check-in, step for step: neither
    setting reaches any decision. *)
Theorem checkin_ignores_level_and_validity
    (app app' : App) (pinCode : string) (skipGPS : bool) (pf : Platform) (m : Machine)
    (lesson lesson' : Lesson) :
  user app = user app' ->
  Checkin.getFingerprint app = Checkin.getFingerprint app' ->
  Date_now app = Date_now app' ->
  findActiveLesson app pinCode = Some lesson ->
  findActiveLesson app' pinCode = Some lesson' ->
  same_geofence lesson lesson' ->
  handleCheckin app pinCode skipGPS pf m = handleCheckin app' pinCode skipGPS pf m.
Proof.
  intros Huser Hfp Hnow Hlesson Hlesson' (Hid & Hlat & Hlon & Hradius & _).
  unfold handleCheckin. rewrite <- Huser, Hlesson, Hlesson', <- Hfp.
  destruct (user app) as [student |] eqn:Hstudent; [| reflexivity].
  destruct (negb (String.length pinCode =? 6)%nat); [reflexivity |].
  assert (Hlocate : locate lesson app skipGPS pf m = locate lesson' app' skipGPS pf m).
  { unfold locate. rewrite <- Hnow, <- Huser, Hstudent.
    destruct skipGPS; [reflexivity |].
    unfold bind at 1 3.
    rewrite (detectSuspiciousGPS_thresholds_unused pf _
               (Some (or_default_string (fake_detection_level lesson') "medium"))
               _ _ (radius_meters lesson') (pin_validity_seconds lesson')).
    reflexivity. }
  unfold try_catch, bind, platform.
  destruct (negb (isMobileDevice (navigator pf))); [reflexivity |].
  rewrite Hlocate, <- Hid, <- Hlat, <- Hlon, <- Hradius.
  reflexivity.
Qed.


(** X20. [handleCheckin] always completes, and whatever row it writes is
    consistent: a row flagged as fake GPS is suspicious, a suspicious row
    has a reason, success is shown exactly for a present row, and a row
    written on the skip path is present at distance 0 with no request made. *)
Theorem written_row_is_consistent
    (app : App) (pinCode : string) (skipGPS : bool) (pf : Platform) (m : Machine) :
  exists out m',
    handleCheckin app pinCode skipGPS pf m = (Normal out, m') /\
    forall row,
      written out = Some row ->
      (is_fake_gps row = true -> status row = suspicious) /\
      (status row = suspicious -> exists reason, suspicious_reason row = Some reason) /\
      (status row = present <->
         exists result, shown out = Some result /\ success result = true) /\
      (skipGPS = true ->
         status row = present /\ distance_meters row = 0%float /\ m' = m).
Proof.
  unfold handleCheckin.
  destruct (user app) as [student |];
    [| do 2 eexists; split; [reflexivity | intros row Hrow; discriminate Hrow]].
  destruct (negb (String.length pinCode =? 6)%nat);
    [do 2 eexists; split; [reflexivity | intros row Hrow; discriminate Hrow] |].
  unfold try_catch at 1. unfold bind at 1. unfold platform at 1.
  destruct (negb (isMobileDevice (navigator pf)));
    [do 2 eexists; split; [reflexivity | intros row Hrow; discriminate Hrow] |].
  destruct (findActiveLesson app pinCode) as [lesson |];
    [| do 2 eexists; split; [reflexivity | intros row Hrow; discriminate Hrow]].
  unfold bind at 1.
  destruct skipGPS.
  - unfold locate, ret, throw. cbn [negb].
    destruct (Checkin.getFingerprint app) as [fp |];
      [| do 2 eexists; split; [reflexivity | intros row Hrow; discriminate Hrow]].
    cbn. do 2 eexists. split; [reflexivity |].
    intros row Hrow. injection Hrow as <-. cbn.
    repeat split; try discriminate; eauto.
  - destruct (locate lesson app false pf m) as [[[msg | [location check]] | e] m2];
      [do 2 eexists; split; [reflexivity | intros row Hrow; discriminate Hrow] | |
       do 2 eexists; split; [reflexivity | intros row Hrow; discriminate Hrow]].
    cbn [negb].
    destruct (Checkin.getFingerprint app) as [fp |];
      [| do 2 eexists; split; [reflexivity | intros row Hrow; discriminate Hrow]].
    unfold determineStatus. cbn [negb andb].
    destruct (isSuspicious check) eqn:Hcheck;
      [| destruct (PrimFloat.leb _ _)]; cbn [negb]; unfold ret;
      do 2 eexists; (split; [reflexivity |]);
      intros row Hrow; injection Hrow as <-; cbn;
      rewrite ?Hcheck;
      repeat split; try discriminate; eauto;
      try (intros (result & Hshown & Hsuccess); injection Hshown as <-;
           discriminate Hsuccess).
Qed.

(** X21. The low-accuracy attempt is made only after a timeout: two
    geolocation services that answer the high-accuracy request alike, and
    not with a timeout, settle the promise alike, whatever they would answer
    under low accuracy. *)
Theorem retry_only_after_timeout
    (js : Engine) (ua : string) (gps gps' : nat -> PositionOptions -> PositionResult)
    (id : nat) :
  gps id highAccuracy = gps' id highAccuracy ->
  (forall error, gps id highAccuracy = PositionError error -> code error <> TIMEOUT) ->
  settle {| engine := js; navigator := {| userAgent := ua; geolocation := Some gps |} |} id =
  settle {| engine := js; navigator := {| userAgent := ua; geolocation := Some gps' |} |} id.
Proof.
  intros Hsame Hcode. unfold settle. cbn [navigator geolocation].
  rewrite <- Hsame.
  destruct (gps id highAccuracy) as [position | error] eqn:Hhigh; [reflexivity |].
  specialize (Hcode error eq_refl).
  destruct (code error); [reflexivity | reflexivity | congruence | reflexivity].
Qed.

(** X22. Every rejection of [getCurrentLocation] carries one of four fixed
    messages, or the prefix for an unknown error followed by the text of
    the service: the text of the service reaches the caller in no other
    case. *)
Theorem rejection_messages (pf : Platform) (id : nat) (e : Exn) :
  settle pf id = inl e ->
  In e [Error "Geolocation qo'llab-quvvatlanmaydi";
        Error "Joylashuv ruxsati berilmadi. Iltimos, brauzer sozlamalaridan GPS ruxsatini bering.";
        Error "Joylashuvni aniqlab bo'lmadi. Internet aloqasini tekshiring.";
        Error "Joylashuvni aniqlash vaqti tugadi. Qayta urinib ko'ring."] \/
  exists text, e = Error ("Noma'lum xatolik: " ++ text).
Proof.
  unfold settle.
  destruct (geolocation (navigator pf)) as [gps |];
    [| intros H; injection H as <-; left; cbn; auto].
  assert (Hclass : forall error,
             In (handleGeolocationError error)
               [Error "Geolocation qo'llab-quvvatlanmaydi";
                Error "Joylashuv ruxsati berilmadi. Iltimos, brauzer sozlamalaridan GPS ruxsatini bering.";
                Error "Joylashuvni aniqlab bo'lmadi. Internet aloqasini tekshiring.";
                Error "Joylashuvni aniqlash vaqti tugadi. Qayta urinib ko'ring."] \/
             exists text, handleGeolocationError error = Error ("Noma'lum xatolik: " ++ text)).
  { intros error. unfold handleGeolocationError.
    destruct (code error); [left | left | left | right; eexists; reflexivity];
      cbn; auto. }
  destruct (gps id highAccuracy) as [position | error]; [discriminate |].
  destruct (code error) eqn:Hcode;
    try (intros H; injection H as <-; apply Hclass).
  destruct (gps id lowAccuracy) as [position | error']; [discriminate |].
  intros H. injection H as <-. apply Hclass.
Qed.

(** X23. When its own acquisition fails, [checkLocationWithinRadius]
    resolves to the out-of-range result with distance -1 and the message
    of the failure as its only reason; the classifier is not started and no
    further request is made. *)
Theorem checkLocation_acquisition_fails
    (targetLat targetLon radiusMeters : number) (detectionLevel : option string)
    (pf : Platform) (m : Machine) (e : Exn) :
  settle pf (issued m) = inl e ->
  checkLocationWithinRadius targetLat targetLon radiusMeters detectionLevel pf m =
    (Normal {| isWithinRadius := false;
               distance := (-1)%float;
               isFakeGPS := false;
               suspiciousReasons := [exn_message e] |},
     after_request m).
Proof.
  intros Hsettle. unfold checkLocationWithinRadius.
  unfold try_catch. unfold bind at 1. rewrite await_request, Hsettle.
  reflexivity.
Qed.

(** X24. When its own acquisition succeeds, [checkLocationWithinRadius]
    measures the distance from that first reading and then runs the
    classifier, always as for a student since it passes no role. Its
    reasons are the distance reason, when out of range, followed by the
    classifier's, and they are never empty. *)
Theorem checkLocation_result
    (targetLat targetLon radiusMeters : number) (detectionLevel : option string)
    (pf : Platform) (m : Machine) (l0 : LocationData) :
  settle pf (issued m) = inr l0 ->
  exists verdict m2 result,
    detectSuspiciousGPS
      (Some match detectionLevel with Some l => l | None => "medium" end)
      None None None pf (after_request m) = (Normal verdict, m2) /\
    checkLocationWithinRadius targetLat targetLon radiusMeters detectionLevel pf m =
      (Normal result, m2) /\
    distance result =
      calculateDistance (engine pf) (latitude l0) (longitude l0) targetLat targetLon /\
    isWithinRadius result = PrimFloat.leb (distance result) radiusMeters /\
    isFakeGPS result = isSuspicious verdict /\
    suspiciousReasons result =
      List.app
        (if isWithinRadius result then []
         else ["Darsdan " ++
               Number_toString (engine pf) (Math_round (engine pf) (distance result)) ++
               "m uzoqda"])
        (reasons verdict) /\
    suspiciousReasons result <> [].
Proof.
  intros Hsettle.
  destruct (detectSuspiciousGPS_resolves pf
              (Some match detectionLevel with Some l => l | None => "medium" end)
              None None None (after_request m)) as (verdict & m2 & Hdetect).
  assert (Hreasons : reasons verdict <> []).
  { apply (nonexempt_reasons_shape pf
             (Some match detectionLevel with Some l => l | None => "medium" end)
             None None None (after_request m) verdict eq_refl).
    unfold verdict_of. rewrite Hdetect. reflexivity. }
  exists verdict, m2. eexists. split; [exact Hdetect |].
  unfold checkLocationWithinRadius.
  unfold try_catch. unfold bind at 1. rewrite await_request, Hsettle.
  unfold bind at 1. rewrite Hdetect. unfold bind, platform, ret.
  split; [reflexivity |]. cbn [distance isWithinRadius isFakeGPS suspiciousReasons].
  repeat split.
  - destruct (PrimFloat.leb _ radiusMeters); reflexivity.
  - intros Hnil. apply app_eq_nil in Hnil as [_ Hnil]. exact (Hreasons Hnil).
Qed.

End OrchestratorFlows.

(** ** The further properties on concrete devices *)

Section Witnesses.

Local Open Scope string_scope.

Example diagnosis_of_secure_page :
  recommendations (diagnoseGPSSystem Cases.chromeAndroid Cases.securePage) = [].
Proof.
  apply (proj1 (diagnoseGPSSystem_recommendations Cases.chromeAndroid Cases.securePage)).
  repeat split.
Defined.

Example request_count_on_phone :
  snd (detectSuspiciousGPS (Some "medium") None None (Some "student")
         Scenario.genuinePhone Scenario.start) = after_classification Scenario.start /\
  snd (detectSuspiciousGPS (Some "medium") None None (Some "student")
         Scenario.failingEmulator Scenario.start) = after_request Scenario.start.
Proof.
  split.
  - exact (classification_request_count Scenario.genuinePhone (Some "medium") None None
             (Some "student") Scenario.start eq_refl).
  - exact (classification_request_count Scenario.failingEmulator (Some "medium") None None
             (Some "student") Scenario.start eq_refl).
Defined.

Example suspicious_on_frozen_sensor :
  exists r,
    In r ["Mumkin bo'lmagan GPS aniqligi (0 metr)";
          "Mumkin bo'lmagan yuqori aniqlik";
          "GPS ko'rsatkichlari sun'iy ravishda bir xil"] /\
    In r indicatorReasons.
Proof.
  apply (suspicious_needs_indicator Scenario.frozenPhone (Some "medium") None None
           (Some "student") Scenario.start
           {| isSuspicious := true;
              reasons := ["Mumkin bo'lmagan GPS aniqligi (0 metr)";
                          "Mumkin bo'lmagan yuqori aniqlik";
                          "GPS ko'rsatkichlari sun'iy ravishda bir xil"] |});
    vm_compute; reflexivity.
Defined.

Example clean_verdict_has_a_reason :
  ["GPS tekshiruvida xatolik"] <> [] /\
  (false = false -> exists before, ["GPS tekshiruvida xatolik"] = before ++ ["GPS tekshiruvida xatolik"])%list.
Proof.
  apply (verdict_reasons_never_empty Scenario.genuinePhone (Some "medium") None None
           (Some "student") Scenario.start
           {| isSuspicious := false; reasons := ["GPS tekshiruvida xatolik"] |});
    vm_compute; reflexivity.
Defined.

Example zero_accuracy_on_phone :
  exists verdict,
    verdict_of (detectSuspiciousGPS (Some "medium") None None (Some "student")
                  Scenario.zeroAccuracyPhone Scenario.start) = Normal verdict /\
    isSuspicious verdict = true /\
    In "Mumkin bo'lmagan GPS aniqligi (0 metr)" (reasons verdict) /\
    In "Mumkin bo'lmagan yuqori aniqlik" (reasons verdict).
Proof.
  eapply (zero_accuracy_flags Scenario.zeroAccuracyPhone (Some "medium") None None
            (Some "student") Scenario.start).
  - reflexivity.
  - repeat split; vm_compute; reflexivity.
  - vm_compute. reflexivity.
Defined.

Example wrong_pin_on_phone :
  exists out,
    handleCheckin (Scenario.classroom Scenario.lessonNoSkip) "000000" true
      Scenario.genuinePhone Scenario.start = (Normal out, Scenario.start) /\
    written out = None.
Proof.
  destruct (unresolved_pin_is_rejected (Scenario.classroom Scenario.lessonNoSkip)
              "000000" true Scenario.genuinePhone Scenario.start eq_refl)
    as (out & Hrun & Hrow & _).
  exists out. split; assumption.
Defined.

Example permission_revoked_midway :
  handleCheckin (Scenario.classroom Scenario.lessonNoSkip) "123456" false
    (Scenario.device Scenario.phone Cases.revokedGPS) Scenario.start =
    (Normal (failure
       ("Joylashuv ruxsati berilmadi. Iltimos, brauzer sozlamalaridan GPS ruxsatini bering."
        ++ nl ++ nl ++ "Chrome/Safari sozlamalarida: " ++ nl ++
        "1. Uch burchak menyuga bosing" ++ nl ++
        "2. 'Joylashuv' ruxsatini 'Ruxsat berilgan' qiling" ++ nl ++
        "3. Sahifani qayta yuklang")),
     after_request (after_classification Scenario.start)).
Proof.
  apply (proj1 (location_failure_hints (Scenario.classroom Scenario.lessonNoSkip)
                  "123456" (Scenario.device Scenario.phone Cases.revokedGPS)
                  Scenario.start (after_classification Scenario.start)
                  Scenario.student Scenario.lessonNoSkip
                  {| isSuspicious := false; reasons := ["GPS tekshiruvida xatolik"] |}
                  Cases.revokedGPS
                  eq_refl eq_refl eq_refl eq_refl eq_refl eq_refl)
           "User denied Geolocation").
  reflexivity.
Defined.

Example four_requests_on_phone :
  exists out row,
    handleCheckin (Scenario.classroom Scenario.lessonNoSkip) "123456" false
      Scenario.genuinePhone Scenario.start =
      (Normal out, after_request (after_classification Scenario.start)) /\
    written out = Some row /\
    row_latitude row = 41.30001%float /\
    row_longitude row = 69.20001%float.
Proof.
  destruct (geofence_reading_is_the_fourth
              (Scenario.classroom Scenario.lessonNoSkip) "123456"
              Scenario.genuinePhone Scenario.start Scenario.student
              Scenario.lessonNoSkip "5f2c"
              (Scenario.reading 41.30000%float 69.20000%float 12%float)
              (Scenario.reading 41.30001%float 69.20000%float 12%float)
              (Scenario.reading 41.30002%float 69.20001%float 15%float)
              (Scenario.reading 41.30001%float 69.20001%float 12%float)
              eq_refl eq_refl eq_refl eq_refl eq_refl eq_refl
              (conj eq_refl (conj eq_refl eq_refl)) eq_refl)
    as (out & row & Hrun & Hrow & Hlat & Hlon & _).
  exists out, row. repeat split; assumption.
Defined.

Example present_at_the_edge :
  exists out row result,
    verdict_of (handleCheckin (Scenario.classroom Cases.lessonAtEdge) "123456" false
                  Scenario.genuinePhone Scenario.start) = Normal out /\
    written out = Some row /\ status row = present /\
    shown out = Some result /\ success result = true.
Proof.
  apply (geofence_boundary_is_inside
           (Scenario.classroom Cases.lessonAtEdge) "123456"
           Scenario.genuinePhone Scenario.start (after_classification Scenario.start)
           Scenario.student Cases.lessonAtEdge "5f2c"
           {| isSuspicious := false; reasons := ["GPS tekshiruvida xatolik"] |}
           (Scenario.reading 41.30001%float 69.20001%float 12%float));
    vm_compute; reflexivity.
Defined.

Example teacher_checkin_single_request :
  exists out row,
    handleCheckin (Cases.staffroom Scenario.lessonNoSkip) "123456" false
      Scenario.genuinePhone Scenario.start = (Normal out, after_request Scenario.start) /\
    written out = Some row /\
    is_fake_gps row = false.
Proof.
  destruct (exempt_checkin_single_request
              (Cases.staffroom Scenario.lessonNoSkip) "123456"
              Scenario.genuinePhone Scenario.start Cases.teacher
              Scenario.lessonNoSkip "5f2c" (Scenario.reading 41.30000%float 69.20000%float 12%float)
              eq_refl eq_refl eq_refl eq_refl eq_refl eq_refl eq_refl)
    as (out & row & Hrun & Hrow & Hfake & _).
  exists out, row. repeat split; assumption.
Defined.

Example level_changes_nothing :
  handleCheckin (Scenario.classroom Scenario.lessonNoSkip) "123456" false
    Scenario.frozenPhone Scenario.start =
  handleCheckin (Scenario.classroom Cases.lessonMaximal) "123456" false
    Scenario.frozenPhone Scenario.start.
Proof.
  apply (checkin_ignores_level_and_validity
           (Scenario.classroom Scenario.lessonNoSkip)
           (Scenario.classroom Cases.lessonMaximal) "123456" false
           Scenario.frozenPhone Scenario.start Scenario.lessonNoSkip Cases.lessonMaximal);
    try reflexivity.
  repeat split.
Defined.

Example denied_is_not_retried :
  settle (Scenario.device Scenario.phone Cases.deniedGPS) 0 =
  settle (Scenario.device Scenario.phone Cases.deniedBehindFallback) 0.
Proof.
  apply (retry_only_after_timeout Scenario.sampleEngine Scenario.phone
           Cases.deniedGPS Cases.deniedBehindFallback 0).
  - reflexivity.
  - intros error Herror. injection Herror as <-. discriminate.
Defined.

Example broken_sensor_message :
  In (Error "Joylashuvni aniqlab bo'lmadi. Internet aloqasini tekshiring.")
    [Error "Geolocation qo'llab-quvvatlanmaydi";
     Error "Joylashuv ruxsati berilmadi. Iltimos, brauzer sozlamalaridan GPS ruxsatini bering.";
     Error "Joylashuvni aniqlab bo'lmadi. Internet aloqasini tekshiring.";
     Error "Joylashuvni aniqlash vaqti tugadi. Qayta urinib ko'ring."] \/
  exists text,
    Error "Joylashuvni aniqlab bo'lmadi. Internet aloqasini tekshiring." =
    Error ("Noma'lum xatolik: " ++ text).
Proof.
  apply (rejection_messages Scenario.failingEmulator 0). reflexivity.
Defined.

Example checkLocation_on_broken_sensor :
  checkLocationWithinRadius 41.3%float 69.2%float 120%float (Some "medium")
    Scenario.failingEmulator Scenario.start =
    (Normal {| isWithinRadius := false;
               distance := (-1)%float;
               isFakeGPS := false;
               suspiciousReasons :=
                 ["Joylashuvni aniqlab bo'lmadi. Internet aloqasini tekshiring."] |},
     after_request Scenario.start).
Proof.
  apply (checkLocation_acquisition_fails 41.3%float 69.2%float 120%float (Some "medium")
           Scenario.failingEmulator Scenario.start
           (Error "Joylashuvni aniqlab bo'lmadi. Internet aloqasini tekshiring.")).
  reflexivity.
Defined.

Example checkLocation_on_phone :
  exists result m2,
    checkLocationWithinRadius 41.3%float 69.2%float 120%float (Some "medium")
      Scenario.genuinePhone Scenario.start = (Normal result, m2) /\
    suspiciousReasons result <> [].
Proof.
  destruct (checkLocation_result 41.3%float 69.2%float 120%float (Some "medium")
              Scenario.genuinePhone Scenario.start
              (Scenario.reading 41.30000%float 69.20000%float 12%float) eq_refl)
    as (verdict & m2 & result & _ & Hrun & _ & _ & _ & _ & Hreasons).
  exists result, m2. split; assumption.
Defined.

End Witnesses.

(** * The distance, the decision, skipping and the fingerprint *)

Import Render Terms.

(** ** Arithmetic of binary64 values *)

Section FloatAlgebra.

Local Open Scope float_scope.

Lemma Prim2SF_zero : Prim2SF 0 = S754_zero false.
Proof.
  reflexivity.
Qed.

Lemma binary_round_aux_opp (prec emax : Z) (s : bool) (m e : Z) (l : location) :
  SFopp (binary_round_aux prec emax s m e l) = binary_round_aux prec emax (negb s) m e l.
Proof.
  unfold binary_round_aux.
  destruct (shr_fexp prec emax m e l) as [mrs' e'].
  destruct (shr_fexp prec emax _ e' loc_Exact) as [mrs'' e''].
  destruct (shr_m mrs''); [reflexivity | | reflexivity].
  destruct (Z.leb e'' (emax - prec)); reflexivity.
Qed.

Lemma binary_round_opp (prec emax : Z) (s : bool) (m : positive) (e : Z) :
  SFopp (binary_round prec emax s m e) = binary_round prec emax (negb s) m e.
Proof.
  unfold binary_round.
  destruct (shl_align m e _) as [mz ez]. apply binary_round_aux_opp.
Qed.

(** What rounding can return for a given sign. *)
Lemma binary_round_aux_sign (prec emax : Z) (s : bool) (m e : Z) (l : location) :
  binary_round_aux prec emax s m e l = S754_nan \/
  binary_round_aux prec emax s m e l = S754_zero s \/
  binary_round_aux prec emax s m e l = S754_infinity s \/
  exists m' e', binary_round_aux prec emax s m e l = S754_finite s m' e'.
Proof.
  unfold binary_round_aux.
  destruct (shr_fexp prec emax m e l) as [mrs' e'].
  destruct (shr_fexp prec emax _ e' loc_Exact) as [mrs'' e''].
  destruct (shr_m mrs'') as [| p | p]; [right; left; reflexivity | | left; reflexivity].
  destruct (Z.leb e'' (emax - prec)).
  - right; right; right. do 2 eexists. reflexivity.
  - right; right; left. reflexivity.
Qed.

Lemma opp_involutive (x : float) : - - x = x.
Proof.
  apply Prim2SF_inj. rewrite !FloatAxioms.opp_spec.
  destruct (Prim2SF x) as [s | s | | s m e]; cbn; try rewrite negb_involutive; reflexivity.
Qed.

Lemma mul_comm (x y : float) : x * y = y * x.
Proof.
  apply Prim2SF_inj. rewrite !FloatAxioms.mul_spec.
  destruct (Prim2SF x) as [s | s | | s m e], (Prim2SF y) as [s' | s' | | s' m' e'];
    cbn; try rewrite (xorb_comm s s'); try reflexivity.
  rewrite (Pos.mul_comm m m'), (Z.add_comm e e'). reflexivity.
Qed.

Lemma mul_opp_l (x y : float) : - x * y = - (x * y).
Proof.
  apply Prim2SF_inj.
  rewrite FloatAxioms.opp_spec, !FloatAxioms.mul_spec, FloatAxioms.opp_spec.
  destruct (Prim2SF x) as [s | s | | s m e], (Prim2SF y) as [s' | s' | | s' m' e'];
    cbn; try reflexivity;
    try (destruct s, s'; reflexivity).
  unfold SF64mul, SFmul. rewrite binary_round_aux_opp.
  destruct s, s'; reflexivity.
Qed.

Lemma mul_opp_r (x y : float) : x * - y = - (x * y).
Proof.
  rewrite (mul_comm x (- y)), mul_opp_l, (mul_comm y x). reflexivity.
Qed.

Lemma mul_opp_opp (x y : float) : - x * - y = x * y.
Proof.
  rewrite mul_opp_l, mul_opp_r, opp_involutive. reflexivity.
Qed.

Lemma div_opp_l (x y : float) : - x / y = - (x / y).
Proof.
  apply Prim2SF_inj.
  rewrite FloatAxioms.opp_spec, !FloatAxioms.div_spec, FloatAxioms.opp_spec.
  destruct (Prim2SF x) as [s | s | | s m e], (Prim2SF y) as [s' | s' | | s' m' e'];
    cbn; try reflexivity;
    try (destruct s, s'; reflexivity).
  unfold SF64div, SFdiv.
  destruct (SFdiv_core_binary prec emax (Z.pos m) e (Z.pos m') e') as [[mz ez] lz].
  rewrite binary_round_aux_opp.
  destruct s, s'; reflexivity.
Qed.

(** Swapping the operands of a subtraction negates the difference, unless
    both differences are [+0]. *)
Lemma sub_swap (x y : float) : x - y = - (y - x) \/ (x - y = 0 /\ y - x = 0).
Proof.
  assert (H : Prim2SF (x - y) = SFopp (Prim2SF (y - x)) \/
              (Prim2SF (x - y) = S754_zero false /\ Prim2SF (y - x) = S754_zero false)).
  { rewrite !FloatAxioms.sub_spec.
    destruct (Prim2SF x) as [s | s | | s m e], (Prim2SF y) as [s' | s' | | s' m' e'];
      cbn; try (left; reflexivity);
      try (destruct s, s'; (left; reflexivity) || (right; split; reflexivity)).
    unfold SF64sub, SFsub. rewrite (Z.min_comm e' e).
    set (ez := Z.min e e').
    set (A := cond_Zopp s (Z.pos (fst (shl_align m e ez)))).
    set (B := cond_Zopp s' (Z.pos (fst (shl_align m' e' ez)))).
    replace (A - B)%Z with (- (B - A))%Z by lia.
    destruct (B - A)%Z as [| p | p]; cbn.
    - right. split; reflexivity.
    - left. rewrite binary_round_opp. reflexivity.
    - left. rewrite binary_round_opp. reflexivity. }
  destruct H as [H | [H1 H2]].
  - left. apply Prim2SF_inj. rewrite FloatAxioms.opp_spec. exact H.
  - right. split; apply Prim2SF_inj; assumption.
Qed.

(** A value that is not below zero: [NaN], a zero, or positive. *)
Lemma ltb_zero_false (x : float) :
  (x <? 0) = false <->
  match Prim2SF x with
  | S754_nan | S754_zero _ | S754_infinity false | S754_finite false _ _ => True
  | _ => False
  end.
Proof.
  rewrite FloatAxioms.ltb_spec, Prim2SF_zero.
  destruct (Prim2SF x) as [s | s | | s m e]; try destruct s; cbn; intuition discriminate.
Qed.

Lemma sqrt_not_negative (u : float) : (PrimFloat.sqrt u <? 0) = false.
Proof.
  apply ltb_zero_false. rewrite FloatAxioms.sqrt_spec.
  destruct (Prim2SF u) as [s | s | | s m e]; try destruct s; try exact I.
  unfold SF64sqrt, SFsqrt.
  destruct (SFsqrt_core_binary prec emax (Z.pos m) e) as [[mz ez] lz].
  destruct (binary_round_aux_sign prec emax false mz ez lz)
    as [H | [H | [H | (m' & e' & H)]]]; rewrite H; exact I.
Qed.

(** Only [-0] has the square root [-0]. *)
Lemma sqrt_negzero (u : float) : PrimFloat.sqrt u = (-0) -> u = (-0).
Proof.
  intros H. apply (f_equal Prim2SF) in H. rewrite FloatAxioms.sqrt_spec in H.
  change (Prim2SF (-0)) with (S754_zero true) in H.
  apply Prim2SF_inj. change (Prim2SF (-0)) with (S754_zero true).
  destruct (Prim2SF u) as [s | s | | s m e]; try destruct s; try discriminate H;
    try reflexivity.
  unfold SF64sqrt, SFsqrt in H.
  destruct (SFsqrt_core_binary prec emax (Z.pos m) e) as [[mz ez] lz].
  destruct (binary_round_aux_sign prec emax false mz ez lz)
    as [H' | [H' | [H' | (m' & e' & H')]]]; rewrite H' in H; discriminate H.
Qed.

(** A positive factor keeps a product from being negative. *)
Lemma mul_not_negative (k c : float) :
  (0 <? k) = true -> (c <? 0) = false -> (k * c <? 0) = false.
Proof.
  intros Hk Hc. apply ltb_zero_false. apply ltb_zero_false in Hc.
  rewrite FloatAxioms.ltb_spec, Prim2SF_zero in Hk.
  rewrite FloatAxioms.mul_spec.
  destruct (Prim2SF k) as [s | s | | s m e]; try destruct s; try discriminate Hk;
    destruct (Prim2SF c) as [s' | s' | | s' m' e']; try destruct s';
    try contradiction; try exact I.
  unfold SF64mul, SFmul. cbn [xorb].
  destruct (binary_round_aux_sign prec emax false (Z.pos (m * m')) (e + e') loc_Exact)
    as [H | [H | [H | (m'' & e'' & H)]]]; rewrite H; exact I.
Qed.

(** The square root of a negative number is [NaN]. *)
Lemma sqrt_of_negative (v : float) : (v <? 0) = true -> PrimFloat.sqrt v = nan.
Proof.
  intros Hv. rewrite FloatAxioms.ltb_spec, Prim2SF_zero in Hv.
  apply Prim2SF_inj. rewrite FloatAxioms.sqrt_spec.
  destruct (Prim2SF v) as [s | s | | s m e]; try destruct s; try discriminate Hv;
    reflexivity.
Qed.

Lemma is_nan_spec (x : float) : is_nan x = true <-> Prim2SF x = S754_nan.
Proof.
  unfold is_nan. rewrite FloatAxioms.eqb_spec. split.
  - intros H. destruct (Prim2SF x) as [s | s | | s m e] eqn:E; try reflexivity;
      rewrite SFeqb_refl in H by discriminate; discriminate H.
  - intros ->. reflexivity.
Qed.

(** [NaN] is within no radius, above no bound and equal to nothing. *)
Lemma leb_nan_l (x y : float) : is_nan x = true -> (x <=? y) = false.
Proof.
  intros H. apply is_nan_spec in H. rewrite FloatAxioms.leb_spec, H. reflexivity.
Qed.

Lemma leb_nan_r (x y : float) : is_nan y = true -> (x <=? y) = false.
Proof.
  intros H. apply is_nan_spec in H. rewrite FloatAxioms.leb_spec, H.
  destruct (Prim2SF x) as [s | s | | s m e]; try destruct s; reflexivity.
Qed.

Lemma eqb_nan (x y : float) : is_nan x = true -> (x =? y) = false.
Proof.
  intros H. apply is_nan_spec in H. rewrite FloatAxioms.eqb_spec, H. reflexivity.
Qed.

Lemma eqb_refl_not_nan (x : float) : is_nan x = false -> (x =? x) = true.
Proof.
  unfold is_nan. destruct (x =? x); [reflexivity | discriminate].
Qed.

Lemma is_finite_cases (x : float) :
  is_finite x = true ->
  match Prim2SF x with
  | S754_zero _ | S754_finite _ _ _ => True
  | _ => False
  end.
Proof.
  unfold is_finite, is_nan, is_infinity.
  rewrite !FloatAxioms.eqb_spec, FloatAxioms.abs_spec.
  change (Prim2SF infinity) with (S754_infinity false).
  destruct (Prim2SF x) as [s | s | | s m e]; try (intros _; exact I);
    try destruct s; vm_compute; intros H; discriminate H.
Qed.

(** A finite number minus itself is [+0]. *)
Lemma sub_diag (x : float) : is_finite x = true -> x - x = 0.
Proof.
  intros H. apply is_finite_cases in H.
  apply Prim2SF_inj. rewrite FloatAxioms.sub_spec, Prim2SF_zero.
  destruct (Prim2SF x) as [s | s | | s m e]; try contradiction.
  - destruct s; reflexivity.
  - unfold SF64sub, SFsub. rewrite Z.sub_diag. reflexivity.
Qed.

(** A finite factor times two zeros adds nothing to [+0]. *)
Lemma add_zero_product (p : float) : is_finite p = true -> 0 + p * 0 * 0 = 0.
Proof.
  intros H. apply is_finite_cases in H.
  apply Prim2SF_inj.
  rewrite FloatAxioms.add_spec, !FloatAxioms.mul_spec, Prim2SF_zero.
  destruct (Prim2SF p) as [s | s | | s m e]; try contradiction;
    destruct s; reflexivity.
Qed.

Lemma abs_opp (x : float) : abs (- x) = abs x.
Proof.
  apply Prim2SF_inj. rewrite !FloatAxioms.abs_spec, FloatAxioms.opp_spec.
  destruct (Prim2SF x) as [s | s | | s m e]; reflexivity.
Qed.

Lemma abs_not_negative (x : float) : (abs x <? 0) = false.
Proof.
  apply ltb_zero_false. rewrite FloatAxioms.abs_spec.
  destruct (Prim2SF x) as [s | s | | s m e]; exact I.
Qed.

(** Of a number and its opposite, whose magnitude is a positive [k], exactly
    one is negative. *)
Lemma ltb_zero_opp (x k : float) :
  (abs x =? k) = true -> (0 <? k) = true -> (- x <? 0) = negb (x <? 0).
Proof.
  rewrite FloatAxioms.eqb_spec, !FloatAxioms.ltb_spec, FloatAxioms.abs_spec,
    FloatAxioms.opp_spec, Prim2SF_zero.
  destruct (Prim2SF x) as [s | s | | s m e]; try destruct s;
    destruct (Prim2SF k) as [s' | s' | | s' m' e']; try destruct s';
    cbn; intros H1 H2; try discriminate H1; try discriminate H2; reflexivity.
Qed.

End FloatAlgebra.

(** ** The distance *)

Section DistanceFacts.

Local Open Scope float_scope.

Variable js : Engine.

(** The two square roots are taken of [a] as it was computed. *)
Lemma calculateDistance_haversine (lat1 lon1 lat2 lon2 : number) :
  calculateDistance js lat1 lon1 lat2 lon2 =
  6371e3 * (2 * Math_atan2 js (PrimFloat.sqrt (haversine js lat1 lon1 lat2 lon2))
                             (PrimFloat.sqrt (1 - haversine js lat1 lon1 lat2 lon2))).
Proof.
  reflexivity.
Qed.

(** The half-angle of a difference changes sign, or stays as it is, when the
    difference is taken the other way round. *)
Lemma half_angle_swap (x y : number) :
  (y - x) * Math_PI / 180 / 2 = - ((x - y) * Math_PI / 180 / 2) \/
  (y - x) * Math_PI / 180 / 2 = (x - y) * Math_PI / 180 / 2.
Proof.
  destruct (sub_swap y x) as [H | [H1 H2]].
  - left. rewrite H, mul_opp_l, !div_opp_l. reflexivity.
  - right. rewrite H1, H2. reflexivity.
Qed.

Hypothesis sin_odd : forall x, Math_sin js (- x) = - Math_sin js x.

Lemma sin_square_swap (x y : number) (p : number) :
  p * Math_sin js ((y - x) * Math_PI / 180 / 2) * Math_sin js ((y - x) * Math_PI / 180 / 2) =
  p * Math_sin js ((x - y) * Math_PI / 180 / 2) * Math_sin js ((x - y) * Math_PI / 180 / 2).
Proof.
  destruct (half_angle_swap x y) as [H | H]; rewrite H; [| reflexivity].
  rewrite sin_odd, (mul_opp_r p), mul_opp_opp. reflexivity.
Qed.

Lemma sin_product_swap (x y : number) :
  Math_sin js ((y - x) * Math_PI / 180 / 2) * Math_sin js ((y - x) * Math_PI / 180 / 2) =
  Math_sin js ((x - y) * Math_PI / 180 / 2) * Math_sin js ((x - y) * Math_PI / 180 / 2).
Proof.
  destruct (half_angle_swap x y) as [H | H]; rewrite H; [| reflexivity].
  rewrite sin_odd, mul_opp_opp. reflexivity.
Qed.

Lemma haversine_swap (lat1 lon1 lat2 lon2 : number) :
  haversine js lat2 lon2 lat1 lon1 = haversine js lat1 lon1 lat2 lon2.
Proof.
  unfold haversine; cbv zeta.
  rewrite (sin_product_swap lat2 lat1).
  rewrite (sin_square_swap lon2 lon1).
  rewrite (mul_comm (Math_cos js (lat2 * Math_PI / 180))). reflexivity.
Qed.

Lemma calculateDistance_swap (lat1 lon1 lat2 lon2 : number) :
  calculateDistance js lat2 lon2 lat1 lon1 = calculateDistance js lat1 lon1 lat2 lon2.
Proof.
  rewrite !calculateDistance_haversine, haversine_swap. reflexivity.
Qed.

End DistanceFacts.

Section TabulatedEngine.

Local Open Scope float_scope.

Lemma tabulated_sin_odd (x : float) :
  Math_sin Antipodes.tabulated (- x) = - Math_sin Antipodes.tabulated x.
Proof.
  cbn [Math_sin Antipodes.tabulated]. rewrite abs_opp.
  destruct (abs x =? 0x1.1df46a2529d39p-3) eqn:E1.
  - rewrite (ltb_zero_opp x _ E1) by reflexivity.
    destruct (x <? 0); reflexivity.
  - destruct (abs x =? 0x1.921fb54442d18p+0) eqn:E2; [| reflexivity].
    rewrite (ltb_zero_opp x _ E2) by reflexivity.
    destruct (x <? 0); reflexivity.
Qed.

Lemma tabulated_atan2_nan (y : float) : Math_atan2 Antipodes.tabulated y nan = nan.
Proof.
  cbn [Math_atan2 Antipodes.tabulated].
  apply Prim2SF_inj. rewrite FloatAxioms.abs_spec, FloatAxioms.div_spec.
  change (Prim2SF nan) with S754_nan.
  destruct (Prim2SF y) as [s | s | | s m e]; reflexivity.
Qed.

Lemma tabulated_atan2_not_negative (y x : float) :
  (Math_atan2 Antipodes.tabulated y x <? 0) = false.
Proof.
  apply abs_not_negative.
Qed.

End TabulatedEngine.

Section DistanceClaim.

Local Open Scope float_scope.

(** C9, as the code computes the distance. [calculateDistance] takes the
    two square roots of [a] as it was computed, with no clamp: whenever
    [1 - a] comes out negative, the distance is [NaN]. On an engine whose
    sine is odd, swapping the two points gives the very same result, so the
    two calls compare equal exactly when the distance is not [NaN]. On an
    engine whose [atan2] is not negative for arguments that are not
    negative (two [-0] apart), the distance is never negative: it is at
    least 0, or it is [NaN]. And for identical points with finite
    coordinates the distance is exactly [+0], not [NaN], on an engine with
    [sin(+0) = +0] and [atan2(+0, 1) = +0] and a finite square of the
    cosine of the latitude. *)
Theorem calculateDistance_unclamped (js : Engine) (lat1 lon1 lat2 lon2 : number) :
  (forall x, Math_sin js (- x) = - Math_sin js x) ->
  Math_sin js 0 = 0 ->
  Math_atan2 js 0 1 = 0 ->
  (forall y, Math_atan2 js y nan = nan) ->
  (forall y x, (y <? 0) = false -> (x <? 0) = false -> ~ (y = (-0) /\ x = (-0)) ->
               (Math_atan2 js y x <? 0) = false) ->
  let d := calculateDistance js lat1 lon1 lat2 lon2 in
  let a := haversine js lat1 lon1 lat2 lon2 in
  d = 6371e3 * (2 * Math_atan2 js (PrimFloat.sqrt a) (PrimFloat.sqrt (1 - a))) /\
  ((1 - a <? 0) = true -> is_nan d = true) /\
  calculateDistance js lat2 lon2 lat1 lon1 = d /\
  (d <? 0) = false /\
  (is_nan d = false ->
     (d =? calculateDistance js lat2 lon2 lat1 lon1) = true /\ (0 <=? d) = true) /\
  (is_nan d = true ->
     (d =? calculateDistance js lat2 lon2 lat1 lon1) = false /\ (0 <=? d) = false) /\
  (is_finite lat1 = true -> is_finite lon1 = true ->
   is_finite (Math_cos js (lat1 * Math_PI / 180) * Math_cos js (lat1 * Math_PI / 180)) = true ->
     calculateDistance js lat1 lon1 lat1 lon1 = 0).
Proof.
  intros Hodd Hsin0 Hatan0 Hnan Hsign d a.
  assert (Hd : d = 6371e3 * (2 * Math_atan2 js (PrimFloat.sqrt a) (PrimFloat.sqrt (1 - a))))
    by reflexivity.
  assert (Hswap : calculateDistance js lat2 lon2 lat1 lon1 = d)
    by (apply calculateDistance_swap; exact Hodd).
  assert (Hnonneg : (d <? 0) = false).
  { rewrite Hd. apply mul_not_negative; [reflexivity |].
    apply mul_not_negative; [reflexivity |].
    apply Hsign; try apply sqrt_not_negative.
    intros [Hy Hx]. apply sqrt_negzero in Hy.
    rewrite Hy in Hx. vm_compute in Hx.
    apply (f_equal Prim2SF) in Hx. vm_compute in Hx. discriminate Hx. }
  split; [exact Hd |].
  split.
  { intros Hneg. rewrite Hd, (sqrt_of_negative _ Hneg), Hnan. reflexivity. }
  split; [exact Hswap |].
  split; [exact Hnonneg |].
  split.
  { intros Hnum. rewrite Hswap. split; [apply eqb_refl_not_nan; exact Hnum |].
    rewrite leb_negb_ltb by (reflexivity || exact Hnum).
    rewrite Hnonneg. reflexivity. }
  split.
  { intros Hnum. split; [apply eqb_nan; exact Hnum | apply leb_nan_r; exact Hnum]. }
  intros Hlat Hlon Hcos.
  rewrite calculateDistance_haversine.
  assert (Ha : haversine js lat1 lon1 lat1 lon1 = 0).
  { unfold haversine; cbv zeta.
    rewrite (sub_diag lat1 Hlat), (sub_diag lon1 Hlon).
    change (0 * Math_PI / 180 / 2) with 0.
    rewrite Hsin0.
    change (0 * 0) with 0.
    apply add_zero_product. exact Hcos. }
  rewrite Ha.
  change (PrimFloat.sqrt 0) with 0.
  change (PrimFloat.sqrt (1 - 0)) with 1.
  rewrite Hatan0. reflexivity.
Qed.

(** C9 as stated fails at the points (-8, 0) and (8, 180), with the sine
    and the cosine rounded to nearest: [a] comes out above 1 and is used as
    it is, the distance is [NaN], it does not compare equal to the distance
    taken the other way round, and it is not at least 0. *)
Lemma calculateDistance_nan_at_antipodes :
  (1 <? haversine Antipodes.tabulated (-8) 0 8 180) = true /\
  is_nan (calculateDistance Antipodes.tabulated (-8) 0 8 180) = true /\
  (calculateDistance Antipodes.tabulated (-8) 0 8 180 =?
   calculateDistance Antipodes.tabulated 8 180 (-8) 0) = false /\
  (0 <=? calculateDistance Antipodes.tabulated (-8) 0 8 180) = false.
Proof.
  repeat split; vm_compute; reflexivity.
Qed.

(** The same two points, and the first of them taken twice. *)
Lemma calculateDistance_unclamped_at_antipodes :
  is_nan (calculateDistance Antipodes.tabulated (-8) 0 8 180) = true /\
  calculateDistance Antipodes.tabulated 8 180 (-8) 0 =
    calculateDistance Antipodes.tabulated (-8) 0 8 180 /\
  (calculateDistance Antipodes.tabulated (-8) 0 8 180 <? 0) = false /\
  calculateDistance Antipodes.tabulated (-8) 0 (-8) 0 = 0.
Proof.
  destruct (calculateDistance_unclamped Antipodes.tabulated (-8) 0 8 180
              tabulated_sin_odd eq_refl eq_refl tabulated_atan2_nan
              (fun y x _ _ _ => tabulated_atan2_not_negative y x))
    as (_ & Hnan & Hswap & Hsign & _ & _ & Hsame).
  split; [apply Hnan; vm_compute; reflexivity |].
  split; [exact Hswap |]. split; [exact Hsign |].
  apply Hsame; vm_compute; reflexivity.
Defined.

End DistanceClaim.

(** ** The decision *)

Section JoinedText.

Local Open Scope string_scope.

Lemma includes_suffix (a b x : string) : includes b x = true -> includes (a ++ b) x = true.
Proof.
  intros H. induction a as [| c a IH]; [exact H |].
  cbn [append]. rewrite includes_unfold. cbn iota. rewrite IH. apply orb_true_r.
Qed.

Lemma includes_prefix (a b : string) : includes (a ++ b) a = true.
Proof.
  rewrite includes_unfold, prefix_append. reflexivity.
Qed.

Lemma includes_refl (a : string) : includes a a = true.
Proof.
  rewrite includes_unfold.
  replace (String.prefix a a) with true; [reflexivity |].
  symmetry. induction a as [| c a IH]; [reflexivity |].
  cbn. destruct (ascii_dec c c) as [_ | Hne]; [exact IH | congruence].
Qed.

(** [join] puts the separator between each two neighbours. *)
Lemma join_separated (sep : string) (xs : list string) : separated sep xs (join xs sep).
Proof.
  induction xs as [| x [| y rest] IH].
  - constructor.
  - constructor.
  - change (join (x :: y :: rest) sep) with (x ++ sep ++ join (y :: rest) sep).
    constructor. exact IH.
Qed.

(** Nothing else is a separated text of the list. *)
Lemma separated_join (sep : string) (xs : list string) (text : string) :
  separated sep xs text -> text = join xs sep.
Proof.
  induction 1 as [| x | x y rest text Hsep IH]; [reflexivity | reflexivity |].
  rewrite IH. reflexivity.
Qed.

(** A separated text includes each of its items. *)
Lemma separated_includes (sep : string) (xs : list string) (text : string) :
  separated sep xs text -> forall x, In x xs -> includes text x = true.
Proof.
  induction 1 as [| x0 | x0 y rest text Hsep IH]; intros x Hin.
  - destruct Hin.
  - destruct Hin as [<- | []]. apply includes_refl.
  - destruct Hin as [<- | Hin].
    + apply includes_prefix.
    + apply includes_suffix, includes_suffix. apply IH. exact Hin.
Qed.

End JoinedText.

Section Radius.

Local Open Scope float_scope.

Lemma or_default_allowedRadius (lesson : Lesson) :
  or_default (radius_meters lesson) 120 = allowedRadius lesson.
Proof.
  unfold or_default, allowedRadius, truthy.
  destruct (radius_meters lesson) as [r |]; [| reflexivity].
  destruct ((r =? 0) || is_nan r)%bool; reflexivity.
Qed.

(** A radius that is a number other than zero is the allowed radius; a
    zero, [NaN] or a missing radius stands for 120. *)
Lemma allowedRadius_cases (lesson : Lesson) :
  (forall r, radius_meters lesson = Some r -> (r =? 0) = false -> is_nan r = false ->
     allowedRadius lesson = r) /\
  (forall r, radius_meters lesson = Some r -> (r =? 0) = true \/ is_nan r = true ->
     allowedRadius lesson = 120) /\
  (radius_meters lesson = None -> allowedRadius lesson = 120).
Proof.
  unfold allowedRadius. split; [| split].
  - intros r -> Hzero Hnan. rewrite Hzero, Hnan. reflexivity.
  - intros r -> [H | H]; rewrite H; [| rewrite orb_true_r]; reflexivity.
  - intros ->. reflexivity.
Qed.

End Radius.

Section DecisionClaim.

Local Open Scope string_scope.

(** C8, as the code decides. A check-in on the normal GPS flow, for a PIN
    that resolves to a lesson and with the orchestrator's location reading
    obtained, writes a row whose status follows the precedence: a
    suspicious verdict gives suspicious, with the classifier's reasons in
    order and a comma and a space between each two; otherwise a distance
    that is not within the allowed radius (the test [distance <= radius]
    fails, as it does for every distance above the radius and for a [NaN]
    distance) gives suspicious with a reason that contains the rounded
    distance and the allowed radius; otherwise the row is present. The
    allowed radius is the lesson's radius when that is a number other than
    zero, and 120 when it is 0 or [NaN] or the lesson has none. *)
Theorem decision_precedence_allowed_radius
    (app : App) (pinCode : string) (pf : Platform) (m m1 : Machine)
    (student : User) (lesson : Lesson) (fp : string)
    (verdict : Verdict) (location : LocationData) :
  user app = Some student ->
  String.length pinCode = 6 ->
  isMobileDevice (navigator pf) = true ->
  findActiveLesson app pinCode = Some lesson ->
  Checkin.getFingerprint app = Some fp ->
  detectSuspiciousGPS
    (Some (or_default_string (fake_detection_level lesson) "medium"))
    (radius_meters lesson) (pin_validity_seconds lesson)
    (Some (role student)) pf m = (Normal verdict, m1) ->
  settle pf (issued m1) = inr location ->
  let js := engine pf in
  let radiusMeters := allowedRadius lesson in
  let distance :=
    calculateDistance js (latitude location) (longitude location)
      (lesson_latitude lesson) (lesson_longitude lesson) in
  ((forall r, radius_meters lesson = Some r ->
      PrimFloat.eqb r 0 = false -> PrimFloat.is_nan r = false ->
      radiusMeters = r) /\
   (forall r, radius_meters lesson = Some r ->
      PrimFloat.eqb r 0 = true \/ PrimFloat.is_nan r = true ->
      radiusMeters = 120%float) /\
   (radius_meters lesson = None -> radiusMeters = 120%float)) /\
  exists out row,
    verdict_of (handleCheckin app pinCode false pf m) = Normal out /\
    written out = Some row /\
    distance_meters row = distance /\
    (isSuspicious verdict = true ->
       status row = suspicious /\
       exists reason,
         suspicious_reason row = Some reason /\
         separated ", " (reasons verdict) reason /\
         forall r, In r (reasons verdict) -> includes reason r = true) /\
    (isSuspicious verdict = false ->
     PrimFloat.leb distance radiusMeters = false ->
       status row = suspicious /\
       exists reason,
         suspicious_reason row = Some reason /\
         reason = "Darsdan " ++ Number_toString js (Math_round js distance) ++
                  "m uzoqda (ruxsat: " ++ Number_toString js radiusMeters ++ "m)" /\
         includes reason (Number_toString js (Math_round js distance) ++ "m") = true /\
         includes reason (Number_toString js radiusMeters ++ "m") = true) /\
    (isSuspicious verdict = false ->
     PrimFloat.ltb radiusMeters distance = true ->
       status row = suspicious) /\
    (isSuspicious verdict = false ->
     PrimFloat.is_nan distance = true ->
       status row = suspicious) /\
    (isSuspicious verdict = false ->
     PrimFloat.leb distance radiusMeters = true ->
       status row = present /\ suspicious_reason row = None).
Proof.
  intros Huser Hpin Hmobile Hlesson Hfp Hdetect Hsettle js radiusMeters distance.
  split; [apply allowedRadius_cases |].
  destruct (handleCheckin_gps_flow app pinCode pf m m1 student lesson fp verdict
              location Huser Hpin Hmobile Hlesson Hfp Hdetect Hsettle)
    as (out & row & result & Hrun & Hrow & _ & _ & _ & Hdist & _ & Hstatus & _).
  rewrite or_default_allowedRadius in Hstatus.
  fold js radiusMeters in Hstatus. fold js distance in Hdist.
  rewrite Hdist in Hstatus.
  exists out, row.
  split; [unfold verdict_of; rewrite Hrun; reflexivity |].
  split; [exact Hrow |]. split; [exact Hdist |].
  unfold determineStatus in Hstatus. cbn [negb andb] in Hstatus.
  destruct (isSuspicious verdict) eqn:Hsus;
    [| destruct (PrimFloat.leb distance radiusMeters) eqn:Hwithin];
    cbn [negb] in Hstatus; injection Hstatus as Hst Hreason; rewrite Hst, Hreason.
  - (* the verdict is suspicious *)
    split.
    { intros _. split; [reflexivity |].
      eexists. split; [reflexivity |]. split; [apply join_separated |].
      apply (separated_includes ", "), join_separated. }
    split; [intros Hno; discriminate Hno |].
    split; [intros Hno; discriminate Hno |].
    split; intros Hno; discriminate Hno.
  - (* not suspicious, within the radius *)
    split; [intros Hno; discriminate Hno |].
    split; [intros _ Hno; discriminate Hno |].
    split; [intros _ Hfar; apply ltb_not_leb in Hfar; congruence |].
    split; [intros _ Hnan; rewrite (leb_nan_l _ radiusMeters Hnan) in Hwithin;
            discriminate Hwithin |].
    intros _ _. split; reflexivity.
  - (* not suspicious, not within the radius *)
    split; [intros Hno; discriminate Hno |].
    split.
    { intros _ _. split; [reflexivity |].
      eexists. split; [reflexivity |]. split; [reflexivity |]. split.
      - pose proof (includes_append "Darsdan "
                 (Number_toString js (Math_round js distance) ++ "m")
                 (" uzoqda (ruxsat: " ++ Number_toString js radiusMeters ++ "m)"))
          as Hinc.
        rewrite append_assoc in Hinc. exact Hinc.
      - pose proof (includes_append
                 ("Darsdan " ++ Number_toString js (Math_round js distance)
                    ++ "m uzoqda (ruxsat: ")
                 (Number_toString js radiusMeters ++ "m") ")") as Hinc.
        rewrite !append_assoc in Hinc. exact Hinc. }
    split; [intros _ _; reflexivity |].
    split; [intros _ _; reflexivity |].
    intros _ Hno; discriminate Hno.
Qed.

(** C8 as stated fails, both ways. A lesson whose radius is 0 and a
    student 1.4 m away, with a clean verdict: the distance exceeds the
    lesson's radius and the row is present, because the distance is tested
    against 120. And a lesson at (8, 180) with a student at (-8, 0), with a
    clean verdict: the distance is [NaN], which does not exceed the radius
    of 120, and the row is suspicious. *)
Lemma decision_against_lesson_radius :
  (radius_meters Antipodes.lessonZeroRadius = Some 0%float /\
   exists out row,
     verdict_of (handleCheckin (Scenario.classroom Antipodes.lessonZeroRadius) "123456"
                   false Scenario.genuinePhone Scenario.start) = Normal out /\
     written out = Some row /\
     is_fake_gps row = false /\
     PrimFloat.ltb 0 (distance_meters row) = true /\
     status row = present) /\
  (radius_meters Antipodes.lessonOpposite = Some 120%float /\
   exists out row,
     verdict_of (handleCheckin (Scenario.classroom Antipodes.lessonOpposite) "123456"
                   false Antipodes.antipodalPhone Scenario.start) = Normal out /\
     written out = Some row /\
     is_fake_gps row = false /\
     PrimFloat.ltb 120 (distance_meters row) = false /\
     status row = suspicious).
Proof.
  split; (split; [reflexivity |]); do 2 eexists;
    (split; [lazy; reflexivity |]); repeat split.
Qed.

(** Three check-ins: a student some 300 m from a target of radius 250 m,
    the same student and a target of radius 120 m (the second end-to-end
    scenario of the specification), and a student whose sensor reports
    accuracy 0 and frozen coordinates. *)
Lemma decision_precedence_on_phones :
  (exists out row,
     verdict_of (handleCheckin (Scenario.classroom Scenario.lessonNoSkip) "123456"
                   false Scenario.distantPhone Scenario.start) = Normal out /\
     written out = Some row /\
     status row = suspicious /\
     suspicious_reason row = Some "Darsdan 300m uzoqda (ruxsat: 120m)") /\
  (exists out row,
     verdict_of (handleCheckin (Scenario.classroom Antipodes.lessonWide) "123456"
                   false Scenario.distantPhone Scenario.start) = Normal out /\
     written out = Some row /\
     status row = suspicious /\
     suspicious_reason row = Some "Darsdan 300m uzoqda (ruxsat: 250m)") /\
  (exists out row,
     verdict_of (handleCheckin (Scenario.classroom Scenario.lessonNoSkip) "123456"
                   false Scenario.frozenPhone Scenario.start) = Normal out /\
     written out = Some row /\
     status row = suspicious /\
     suspicious_reason row =
       Some "Mumkin bo'lmagan GPS aniqligi (0 metr), Mumkin bo'lmagan yuqori aniqlik, GPS ko'rsatkichlari sun'iy ravishda bir xil").
Proof.
  split; [| split].
  - edestruct (decision_precedence_allowed_radius
                 (Scenario.classroom Scenario.lessonNoSkip) "123456"
                 Scenario.distantPhone Scenario.start)
      as (_ & out & row & Hrun & Hrow & _ & _ & Hfar & _).
    + reflexivity.
    + reflexivity.
    + reflexivity.
    + reflexivity.
    + reflexivity.
    + lazy. reflexivity.
    + lazy. reflexivity.
    + destruct Hfar as (Hstatus & reason & Hreason & Htext & _);
        [reflexivity | vm_compute; reflexivity |].
      exists out, row. repeat split; try assumption.
      rewrite Hreason, Htext. vm_compute. reflexivity.
  - edestruct (decision_precedence_allowed_radius
                 (Scenario.classroom Antipodes.lessonWide) "123456"
                 Scenario.distantPhone Scenario.start)
      as (_ & out & row & Hrun & Hrow & _ & _ & Hfar & _).
    + reflexivity.
    + reflexivity.
    + reflexivity.
    + reflexivity.
    + reflexivity.
    + lazy. reflexivity.
    + lazy. reflexivity.
    + destruct Hfar as (Hstatus & reason & Hreason & Htext & _);
        [reflexivity | vm_compute; reflexivity |].
      exists out, row. repeat split; try assumption.
      rewrite Hreason, Htext. vm_compute. reflexivity.
  - edestruct (decision_precedence_allowed_radius
                 (Scenario.classroom Scenario.lessonNoSkip) "123456"
                 Scenario.frozenPhone Scenario.start)
      as (_ & out & row & Hrun & Hrow & _ & Hsus & _).
    + reflexivity.
    + reflexivity.
    + reflexivity.
    + reflexivity.
    + reflexivity.
    + lazy. reflexivity.
    + lazy. reflexivity.
    + destruct Hsus as (Hstatus & reason & Hreason & Hsep & _); [reflexivity |].
      exists out, row. repeat split; try assumption.
      rewrite Hreason, (separated_join _ _ _ Hsep). reflexivity.
Defined.

End DecisionClaim.

(** ** Skipping the GPS check *)

Section SkipClaim.

Local Open Scope string_scope.


(** As the guard of the skip button is written, it reads the lesson off the
    check result, which has none: whatever the state of the page and
    whatever the student does with it, the call of [handleCheckin] it leads
    to does not ask to skip. *)
Lemma page_never_skips (isMobile : bool) (checkResult : option CheckResult)
    (pin : string) (action : Action) (pinCode : string) (skipGPS : bool) :
  onAction (render isMobile checkResult) pin action = Some (pinCode, skipGPS) ->
  skipGPS = false.
Proof.
  unfold render.
  destruct isMobile; cbn [negb]; [| discriminate].
  destruct checkResult as [r |]; [discriminate |].
  cbn [checkResult_lesson onAction].
  destruct action as [value |]; [| discriminate].
  unfold handlePinChange. cbn [started].
  destruct (String.length _ =? 6)%nat; [| discriminate].
  intros H. injection H as _ <-. reflexivity.
Qed.



End SkipClaim.

(** ** The fingerprint *)

Section Fingerprint.

Local Open Scope string_scope.

Lemma or_default_orZero (x : option number) : or_default x 0%float = orZero x.
Proof.
  unfold or_default, orZero, truthy.
  destruct x as [v |]; [| reflexivity].
  destruct (PrimFloat.eqb v 0 || PrimFloat.is_nan v)%bool; reflexivity.
Qed.

(** X8. The fingerprint is made of the digest of the device text: when the
    digest of that text resolves to the 32 bytes of a SHA-256 hash, the
    fingerprint is 64 lower-case hexadecimal digits that decode to that
    very hash; when the digest of that text is refused, there is no
    fingerprint. *)
Theorem getFingerprint_of_device_text
    (js : Engine) (nav : Navigator) (dev : Browser.DeviceTraits)
    (digest : list byte -> option (list byte)) :
  (forall hash,
     digest (list_byte_of_string (deviceText js nav dev)) = Some hash ->
     List.length hash = 32 ->
     exists fingerprint,
       Browser.getFingerprint js nav dev digest = Some fingerprint /\
       String.length fingerprint = 64 /\
       allChars isLowerHex fingerprint = true /\
       unhex fingerprint = Some hash) /\
  (digest (list_byte_of_string (deviceText js nav dev)) = None ->
     Browser.getFingerprint js nav dev digest = None).
Proof.
  assert (Htext : Browser.getFingerprint js nav dev digest =
                  match digest (list_byte_of_string (deviceText js nav dev)) with
                  | Some hashArray => Some (Browser.hex hashArray)
                  | None => None
                  end).
  { unfold Browser.getFingerprint, deviceText. rewrite !or_default_orZero. reflexivity. }
  rewrite Htext. split.
  - intros hash -> Hlen. exists (Browser.hex hash).
    destruct (hex_length_digits hash) as (Hhexlen & Hhex).
    split; [reflexivity |]. split; [rewrite Hhexlen, Hlen; reflexivity |].
    split; [exact Hhex | apply unhex_hex].
  - intros ->. reflexivity.
Qed.

(** A phone whose text is hashed to 32 bytes, and the same phone with the
    digest refused. *)
Example getFingerprint_on_pixel :
  deviceText Scenario.sampleEngine Cases.chromeAndroid Cases.pixel =
    Scenario.phone ++ "|uz-UZ|412|915|24|-300|8|5" /\
  (exists fingerprint,
     Browser.getFingerprint Scenario.sampleEngine Cases.chromeAndroid Cases.pixel
       Cases.fixedDigest = Some fingerprint /\
     String.length fingerprint = 64 /\
     unhex fingerprint = Some (List.repeat xab 32)) /\
  Browser.getFingerprint Scenario.sampleEngine Cases.chromeAndroid Cases.pixel
    Antipodes.refusedDigest = None.
Proof.
  split; [vm_compute; reflexivity |]. split.
  - destruct (proj1 (getFingerprint_of_device_text Scenario.sampleEngine
                       Cases.chromeAndroid Cases.pixel Cases.fixedDigest)
                (List.repeat xab 32) eq_refl eq_refl)
      as (fingerprint & Hfp & Hlen & _ & Hun).
    exists fingerprint. repeat split; assumption.
  - apply (proj2 (getFingerprint_of_device_text Scenario.sampleEngine
                    Cases.chromeAndroid Cases.pixel Antipodes.refusedDigest)).
    reflexivity.
Defined.

End Fingerprint.
